(** * gcloud.datastore.model: keys, properties and models

    A shallow embedding of [gcloud/datastore/model.py] (Python 2) and the
    properties of it that the specification states.

    Python values are a first-order fragment ([value]); a call that may raise
    returns a [result]; a [dict] is a [gmap]; the clock and the storage client
    are explicit arguments. *)

From Stdlib Require Import ZArith NArith Bool List Ascii String.
From Stdlib Require Import Floats.SpecFloat.
From stdpp Require Import gmap strings.

Local Open Scope Z_scope.

(** ** Exceptions and results *)

(** The built-in exception classes the module can raise.  [NameError] carries
    the unbound global name. *)
Inductive exn : Type :=
| AssertionError
| NotImplementedError
| SyntaxError
| NameError (name : string)
| AttributeError
| KeyError
| UnicodeDecodeError
| OverflowError
| TypeError.

(** The specification names failures by role; the module raises them with
    [assert], [raise] and a plain [dict] subscript. *)
Definition ValidationError : exn := AssertionError.
Definition ConfigError : exn := AssertionError.
Definition MalformedKeyError : exn := AssertionError.
Definition InvalidIdentifierError : exn := SyntaxError.
Definition NotSupportedError : exn := NotImplementedError.
Definition UnknownKindError : exn := KeyError.

Inductive result (A : Type) : Type :=
| Ok (a : A)
| Raise (e : exn).
Arguments Ok {A} a.
Arguments Raise {A} e.

Definition bind {A B : Type} (k : A → result B) (m : result A) : result B :=
  match m with
  | Ok a => k a
  | Raise e => Raise e
  end.

(** [x ← m; k] runs [m] and hands its value to [k]; an exception in [m]
    propagates. *)
#[global] Instance result_bind : MBind result := @bind.
#[global] Instance result_ret : MRet result := @Ok.

(** [assert c] *)
Definition py_assert (c : bool) : result unit :=
  if c then Ok tt else Raise AssertionError.

Definition is_ok {A : Type} (m : result A) : bool :=
  match m with Ok _ => true | Raise _ => false end.

(** ** Values *)

Record date : Type := Date { year : Z; month : Z; day : Z }.
Record time : Type :=
  Time { hour : Z; minute : Z; second : Z; microsecond : Z }.
Record datetime : Type := DateTime { dt_date : date; dt_time : time }.

(** The fragment of Python 2 values the module tells apart with
    [isinstance]: [int] and [long] are one constructor, [str] is a byte
    string (a Rocq [string] is a list of 8-bit characters), [unicode] is a
    list of code points, and times and date-times are the naive ones, with
    no [tzinfo].  An aware time is outside the fragment: where a statement
    below speaks of every time, it speaks of every naive time. *)
Inductive value : Type :=
| VNone
| VBool (b : bool)
| VInt (n : Z)
| VFloat (f : spec_float)
| VStr (s : string)
| VUnicode (u : list N)
| VDateTime (dt : datetime)
| VDate (d : date)
| VTime (t : time).

Definition is_none (v : value) : bool :=
  match v with VNone => true | _ => false end.

(** [isinstance(v, bool)] *)
Definition isinstance_bool (v : value) : bool :=
  match v with VBool _ => true | _ => false end.

(** [isinstance(v, (int, long))]: [bool] is a subclass of [int]. *)
Definition isinstance_int (v : value) : bool :=
  match v with VBool _ | VInt _ => true | _ => false end.

(** [isinstance(v, (int, long, float))] *)
Definition isinstance_number (v : value) : bool :=
  match v with VBool _ | VInt _ | VFloat _ => true | _ => false end.

(** [isinstance(v, str)] *)
Definition isinstance_str (v : value) : bool :=
  match v with VStr _ => true | _ => false end.

(** [isinstance(v, unicode)] *)
Definition isinstance_unicode (v : value) : bool :=
  match v with VUnicode _ => true | _ => false end.

(** [isinstance(v, basestring)] *)
Definition isinstance_basestring (v : value) : bool :=
  match v with VStr _ | VUnicode _ => true | _ => false end.

(** [isinstance(v, datetime.datetime)] *)
Definition isinstance_datetime (v : value) : bool :=
  match v with VDateTime _ => true | _ => false end.

(** [isinstance(v, datetime.date)]: [datetime] is a subclass of [date]. *)
Definition isinstance_date (v : value) : bool :=
  match v with VDate _ | VDateTime _ => true | _ => false end.

(** [isinstance(v, datetime.time)] *)
Definition isinstance_time (v : value) : bool :=
  match v with VTime _ => true | _ => false end.

(** ** Numbers *)

Definition Z_of_bool (b : bool) : Z := if b then 1 else 0.

(** [int(v)] on a value that passed [isinstance_int]. *)
Definition py_int (v : value) : result value :=
  match v with
  | VBool b => Ok (VInt (Z_of_bool b))
  | VInt n => Ok (VInt n)
  | _ => Raise AssertionError
  end.

(** [float(n)] for an integer: the nearest double, ties to even;
    [OverflowError] when that is not finite. *)
Definition float_of_Z (n : Z) : result value :=
  match binary_normalize 53 1024 n 0 false with
  | S754_infinity _ => Raise OverflowError
  | f => Ok (VFloat f)
  end.

(** [float(v)] on a value that passed [isinstance_number]. *)
Definition py_float (v : value) : result value :=
  match v with
  | VBool b => float_of_Z (Z_of_bool b)
  | VInt n => float_of_Z n
  | VFloat f => Ok (VFloat f)
  | _ => Raise AssertionError
  end.

(** Whether the double [f] is the integer [n], exactly. *)
Definition float_eq_Z (f : spec_float) (n : Z) : bool :=
  match f with
  | S754_zero _ => n =? 0
  | S754_finite s m e =>
      let sm := if s then - Z.pos m else Z.pos m in
      if 0 <=? e then sm * 2 ^ e =? n else sm =? n * 2 ^ (- e)
  | _ => false
  end.

(** ** Text *)

Definition bytes_of (s : string) : list N :=
  map N_of_ascii (list_ascii_of_string s).

Definition is_cont (b : N) : bool := ((0x80 <=? b) && (b <=? 0xBF))%N.

(** The UTF-8 decoder of Python 2.7 behind [s.decode('utf-8')] and
    [unicode(s, 'utf-8')]: shortest form only and nothing above U+10FFFF;
    the three-byte forms of the surrogates U+D800 to U+DFFF are accepted, as
    that codec accepts them.  A character is one code point, as in a build
    with four-byte [unicode].  [None] stands for [UnicodeDecodeError]. *)
Fixpoint utf8_decode (bs : list N) : option (list N) :=
  match bs with
  | [] => Some []
  | b0 :: r0 =>
      if (b0 <? 0x80)%N then cons b0 <$> utf8_decode r0
      else if ((0xC2 <=? b0) && (b0 <=? 0xDF))%N then
        match r0 with
        | b1 :: r1 =>
            if is_cont b1
            then cons ((b0 - 0xC0) * 64 + (b1 - 0x80))%N <$> utf8_decode r1
            else None
        | _ => None
        end
      else if ((0xE0 <=? b0) && (b0 <=? 0xEF))%N then
        match r0 with
        | b1 :: b2 :: r2 =>
            if is_cont b1 && is_cont b2
               && negb ((b0 =? 0xE0) && (b1 <? 0xA0))%N
            then cons ((b0 - 0xE0) * 4096 + (b1 - 0x80) * 64 + (b2 - 0x80))%N
                   <$> utf8_decode r2
            else None
        | _ => None
        end
      else if ((0xF0 <=? b0) && (b0 <=? 0xF4))%N then
        match r0 with
        | b1 :: b2 :: b3 :: r3 =>
            if is_cont b1 && is_cont b2 && is_cont b3
               && negb ((b0 =? 0xF0) && (b1 <? 0x90))%N
               && negb ((b0 =? 0xF4) && (0x8F <? b1))%N
            then cons ((b0 - 0xF0) * 262144 + (b1 - 0x80) * 4096
                       + (b2 - 0x80) * 64 + (b3 - 0x80))%N
                   <$> utf8_decode r3
            else None
        | _ => None
        end
      else None
  end.

(** [s.decode('utf-8')] *)
Definition decode_utf8 (s : string) : result value :=
  match utf8_decode (bytes_of s) with
  | Some u => Ok (VUnicode u)
  | None => Raise UnicodeDecodeError
  end.

(** The implicit ASCII decoding of a [str] compared with a [unicode]. *)
Definition ascii_decode (s : string) : option (list N) :=
  let bs := bytes_of s in
  if forallb (fun b => b <? 0x80)%N bs then Some bs else None.

(** ** Equality of values *)

Definition date_eqb (a b : date) : bool :=
  (year a =? year b) && (month a =? month b) && (day a =? day b).

Definition time_eqb (a b : time) : bool :=
  (hour a =? hour b) && (minute a =? minute b) && (second a =? second b)
  && (microsecond a =? microsecond b).

Definition list_N_eqb (a b : list N) : bool := bool_decide (a = b).

(** [a == b].  Numbers compare by value across [bool], [int] and [float];
    a [str] equals a [unicode] when it is ASCII and decodes to it; a [date]
    never equals a [datetime]; values of unrelated types are unequal. *)
Definition py_eq (a b : value) : bool :=
  match a, b with
  | VNone, VNone => true
  | VBool x, VBool y => Bool.eqb x y
  | VBool x, VInt n | VInt n, VBool x => Z_of_bool x =? n
  | VBool x, VFloat f | VFloat f, VBool x => float_eq_Z f (Z_of_bool x)
  | VInt n, VInt m => n =? m
  | VInt n, VFloat f | VFloat f, VInt n => float_eq_Z f n
  | VFloat f, VFloat g => SFeqb f g
  | VStr s, VStr t => bool_decide (s = t)
  | VUnicode u, VUnicode w => list_N_eqb u w
  | VStr s, VUnicode u | VUnicode u, VStr s =>
      match ascii_decode s with
      | Some w => list_N_eqb w u
      | None => false
      end
  | VDateTime x, VDateTime y =>
      date_eqb (dt_date x) (dt_date y) && time_eqb (dt_time x) (dt_time y)
  | VDate x, VDate y => date_eqb x y
  | VTime x, VTime y => time_eqb x y
  | _, _ => false
  end.

(** [v in c] for a sequence [c]: some element equals [v].  (Python also
    takes an element that is [v] itself, which matters for a NaN only.) *)
Definition py_in (v : value) (c : list value) : bool :=
  existsb (fun x => py_eq x v) c.

(** ** The module's globals *)

(** [import json] binds the JSON module; its two functions belong to the
    Python runtime and are taken as they come. *)
Record json_module : Type := JsonModule {
  json_dumps : value → result value;
  json_loads : value → result value
}.

Record zlib_module : Type := ZlibModule {
  zlib_compress : value → result value;
  zlib_decompress : value → result value
}.

Record pickle_module : Type := PickleModule {
  pickle_dumps : value → result value;
  pickle_loads : value → result value
}.

(** The module imports [datastore], [entity], [key], [json] and [datetime]
    and nothing else: reading the global [zlib] or [pickle] raises
    [NameError]. *)
Definition zlib : result zlib_module := Raise (NameError "zlib").
Definition pickle : result pickle_module := Raise (NameError "pickle").

(** [value.z_val]: no value of the fragment has that attribute. *)
Definition z_val (v : value) : result value := Raise AttributeError.

(** ** Properties *)

Inductive prop_class : Type :=
| Property
| BooleanProperty
| IntegerProperty
| FloatProperty
| BlobProperty
| TextProperty
| StringProperty
| PickleProperty
| JsonProperty
| DateTimeProperty
| DateProperty
| TimeProperty.

(** [issubclass(c, BlobProperty)] *)
Definition is_blob_class (c : prop_class) : bool :=
  match c with
  | BlobProperty | TextProperty | StringProperty | PickleProperty
  | JsonProperty => true
  | _ => false
  end.

(** [issubclass(c, DateTimeProperty)] *)
Definition is_datetime_class (c : prop_class) : bool :=
  match c with
  | DateTimeProperty | DateProperty | TimeProperty => true
  | _ => false
  end.

(** A custom validator is called as [validator(prop, value)]; each property
    holds its own, so it is kept applied to its property. *)
Definition validator : Type := value → result value.

(** A property object: its class and its attributes.  [_compressed] and
    [_schema] exist on the blob family, [_auto_now_add] and [_auto_now] on
    the date-time family; no method of another class reads them. *)
Record property : Type := mkProperty {
  class_of : prop_class;
  _name : option string;
  _indexed : bool;
  _repeated : bool;
  _required : bool;
  _default : value;
  _choices : option (list value);
  _validator : option validator;
  _compressed : bool;
  _schema : value;
  _auto_now_add : bool;
  _auto_now : bool
}.

Definition set_name (n : option string) (p : property) : property :=
  mkProperty (class_of p) n (_indexed p) (_repeated p) (_required p)
    (_default p) (_choices p) (_validator p) (_compressed p) (_schema p)
    (_auto_now_add p) (_auto_now p).

Definition set_default (d : value) (p : property) : property :=
  mkProperty (class_of p) (_name p) (_indexed p) (_repeated p) (_required p)
    d (_choices p) (_validator p) (_compressed p) (_schema p)
    (_auto_now_add p) (_auto_now p).

Definition set_compressed (c : bool) (p : property) : property :=
  mkProperty (class_of p) (_name p) (_indexed p) (_repeated p) (_required p)
    (_default p) (_choices p) (_validator p) c (_schema p)
    (_auto_now_add p) (_auto_now p).

Definition set_schema (s : value) (p : property) : property :=
  mkProperty (class_of p) (_name p) (_indexed p) (_repeated p) (_required p)
    (_default p) (_choices p) (_validator p) (_compressed p) s
    (_auto_now_add p) (_auto_now p).

Definition set_auto (add now : bool) (p : property) : property :=
  mkProperty (class_of p) (_name p) (_indexed p) (_repeated p) (_required p)
    (_default p) (_choices p) (_validator p) (_compressed p) (_schema p)
    add now.

(** *** Construction *)

(** The keyword arguments of a constructor call; [None] is a keyword that
    was not passed. *)
Record kwargs : Type := Kwargs {
  kw_indexed : option bool;
  kw_repeated : option bool;
  kw_required : option bool;
  kw_default : option value;
  kw_choices : option (list value);
  kw_validator : option validator;
  kw_compressed : option bool;
  kw_schema : option value;
  kw_auto_now_add : option bool;
  kw_auto_now : option bool
}.

Definition no_kwargs : kwargs :=
  Kwargs None None None None None None None None None None.

Definition with_indexed (i : option bool) (kw : kwargs) : kwargs :=
  Kwargs i (kw_repeated kw) (kw_required kw) (kw_default kw) (kw_choices kw)
    (kw_validator kw) (kw_compressed kw) (kw_schema kw) (kw_auto_now_add kw)
    (kw_auto_now kw).

Definition without_compressed (kw : kwargs) : kwargs :=
  Kwargs (kw_indexed kw) (kw_repeated kw) (kw_required kw) (kw_default kw)
    (kw_choices kw) (kw_validator kw) None (kw_schema kw)
    (kw_auto_now_add kw) (kw_auto_now kw).

Definition without_schema (kw : kwargs) : kwargs :=
  Kwargs (kw_indexed kw) (kw_repeated kw) (kw_required kw) (kw_default kw)
    (kw_choices kw) (kw_validator kw) (kw_compressed kw) None
    (kw_auto_now_add kw) (kw_auto_now kw).

Definition without_auto (kw : kwargs) : kwargs :=
  Kwargs (kw_indexed kw) (kw_repeated kw) (kw_required kw) (kw_default kw)
    (kw_choices kw) (kw_validator kw) (kw_compressed kw) (kw_schema kw)
    None None.

Definition passed {A : Type} (o : option A) : bool :=
  match o with Some _ => true | None => false end.

(** [Property.__init__(self, name=None, indexed=True, repeated=False,
    required=False, default=None, choices=None, validator=None)]; any other
    keyword is a [TypeError]. *)
Definition Property___init__ (c : prop_class) (name : option string)
    (kw : kwargs) : result property :=
  if passed (kw_compressed kw) || passed (kw_schema kw)
     || passed (kw_auto_now_add kw) || passed (kw_auto_now kw)
  then Raise TypeError
  else Ok (mkProperty c name
             (default true (kw_indexed kw))
             (default false (kw_repeated kw))
             (default false (kw_required kw))
             (default VNone (kw_default kw))
             (kw_choices kw)
             (kw_validator kw)
             false VNone false false).

(** [BlobProperty.__init__(self, name=None, compressed=False, **kwargs)] *)
Definition BlobProperty___init__ (c : prop_class) (name : option string)
    (kw : kwargs) : result property :=
  let compressed := default false (kw_compressed kw) in
  p ← Property___init__ c name (without_compressed kw);
  let p := set_compressed compressed p in
  py_assert (negb (compressed && _indexed p));;
  Ok p.

(** [TextProperty.__init__(self, name=None, indexed=False, **kwargs)] *)
Definition TextProperty___init__ (c : prop_class) (name : option string)
    (kw : kwargs) : result property :=
  let indexed := default false (kw_indexed kw) in
  BlobProperty___init__ c name (with_indexed (Some indexed) kw).

(** [StringProperty.__init__(self, name=None, indexed=True, **kwargs)] *)
Definition StringProperty___init__ (c : prop_class) (name : option string)
    (kw : kwargs) : result property :=
  let indexed := default true (kw_indexed kw) in
  TextProperty___init__ c name (with_indexed (Some indexed) kw).

(** [JsonProperty.__init__(self, name=None, schema=None, **kwargs)] *)
Definition JsonProperty___init__ (c : prop_class) (name : option string)
    (kw : kwargs) : result property :=
  let schema := default VNone (kw_schema kw) in
  p ← BlobProperty___init__ c name (without_schema kw);
  Ok (set_schema schema p).

(** [DateTimeProperty.__init__(self, name=None, auto_now_add=False,
    auto_now=False, **kwargs)] *)
Definition DateTimeProperty___init__ (c : prop_class) (name : option string)
    (kw : kwargs) : result property :=
  let auto_now_add := default false (kw_auto_now_add kw) in
  let auto_now := default false (kw_auto_now kw) in
  py_assert (negb ((auto_now_add || auto_now)
                   && default false (kw_repeated kw)));;
  p ← Property___init__ c name (without_auto kw);
  Ok (set_auto auto_now_add auto_now p).

(** [c(name=name, **kw)]: the constructor the class [c] inherits. *)
Definition construct (c : prop_class) (name : option string) (kw : kwargs)
    : result property :=
  match c with
  | Property | BooleanProperty | IntegerProperty | FloatProperty =>
      Property___init__ c name kw
  | BlobProperty | PickleProperty => BlobProperty___init__ c name kw
  | TextProperty => TextProperty___init__ c name kw
  | StringProperty => StringProperty___init__ c name kw
  | JsonProperty => JsonProperty___init__ c name kw
  | DateTimeProperty | DateProperty | TimeProperty =>
      DateTimeProperty___init__ c name kw
  end.

(** An entity is a [dict]; a property reads and writes it under its
    [_name], which is [None] until the property is fixed up. *)
Abbreviation fields := (gmap (option string) value).

(** *** The conversion pipeline *)

Definition midnight : time := Time 0 0 0 0.
Definition epoch_day : date := Date 1970 1 1.

Section Pipeline.

(** The JSON module that [import json] bound. *)
Variable json : json_module.

(** [_validate], by class. *)
Definition _validate (p : property) (val : value) : result value :=
  match class_of p with
  | Property | PickleProperty | JsonProperty => Ok val
  | BooleanProperty =>
      py_assert (isinstance_bool val);; Ok val
  | IntegerProperty =>
      py_assert (isinstance_int val);; py_int val
  | FloatProperty =>
      py_assert (isinstance_number val);; py_float val
  | BlobProperty =>
      py_assert (isinstance_str val);; Ok val
  | TextProperty | StringProperty =>
      val ← match val with
              | VStr s => decode_utf8 s
              | _ => Ok val
              end;
      py_assert (isinstance_unicode val);; Ok val
  | DateTimeProperty =>
      py_assert (isinstance_datetime val);; Ok val
  | DateProperty =>
      py_assert (isinstance_date val);; Ok val
  | TimeProperty =>
      py_assert (isinstance_time val);; Ok val
  end.

(** [Property.validate]: the two assertions, the [None] exit, the class's
    [_validate] (whose result [v] is dropped), then the custom validator. *)
Definition validate (p : property) (val : value) : result value :=
  py_assert (match _choices p with
             | None => true
             | Some cs => py_in val cs
             end);;
  py_assert (negb (_required p && negb (is_none val)));;
  if is_none val then Ok VNone
  else
    v ← _validate p val;
    match _validator p with
    | Some f => f val
    | None => Ok val
    end.

(** [BlobProperty._to_base_type] *)
Definition BlobProperty__to_base_type (p : property) (val : value)
    : result value :=
  if _compressed p then z ← zlib; zlib_compress z val
  else Ok val.

(** [BlobProperty._from_base_type] *)
Definition BlobProperty__from_base_type (p : property) (val : value)
    : result value :=
  if _compressed p then
    z ← zlib; packed ← z_val val; zlib_decompress z packed
  else Ok val.

(** [_to_base_type], by class. *)
Definition _to_base_type (p : property) (val : value) : result value :=
  match class_of p with
  | Property | BooleanProperty | IntegerProperty | FloatProperty
  | DateTimeProperty => Ok val
  | BlobProperty => BlobProperty__to_base_type p val
  | TextProperty | StringProperty =>
      match val with
      | VStr s => decode_utf8 s
      | _ => Ok val
      end
  | PickleProperty =>
      pk ← pickle; s ← pickle_dumps pk val;
      BlobProperty__to_base_type p s
  | JsonProperty =>
      s ← json_dumps json val; BlobProperty__to_base_type p s
  | DateProperty =>
      match val with
      | VDate d => Ok (VDateTime (DateTime d midnight))
      | VDateTime dt => Ok (VDateTime (DateTime (dt_date dt) midnight))
      | _ => Raise AttributeError
      end
  | TimeProperty =>
      match val with
      | VTime t => Ok (VDateTime (DateTime epoch_day t))
      | VDateTime dt => Ok (VDateTime (DateTime epoch_day (dt_time dt)))
      | _ => Raise AttributeError
      end
  end.

(** [_from_base_type], by class. *)
Definition _from_base_type (p : property) (val : value) : result value :=
  match class_of p with
  | Property | BooleanProperty | IntegerProperty | FloatProperty
  | DateTimeProperty => Ok val
  | BlobProperty => BlobProperty__from_base_type p val
  | TextProperty | StringProperty =>
      match val with
      | VStr s => decode_utf8 s
      | VUnicode _ => Ok val
      | _ => Ok VNone
      end
  | PickleProperty =>
      pk ← pickle; s ← BlobProperty__from_base_type p val;
      pickle_loads pk s
  | JsonProperty =>
      s ← BlobProperty__from_base_type p val; json_loads json s
  | DateProperty =>
      match val with
      | VDateTime dt => Ok (VDate (dt_date dt))
      | _ => Raise AttributeError
      end
  | TimeProperty =>
      match val with
      | VDateTime dt => Ok (VTime (dt_time dt))
      | _ => Raise AttributeError
      end
  end.

(** [Property.to_base_type] *)
Definition to_base_type (p : property) (val : value) : result value :=
  if is_none val then Ok val else _to_base_type p val.

(** [Property.from_base_type] *)
Definition from_base_type (p : property) (val : value) : result value :=
  if is_none val then Ok val else _from_base_type p val.

(** [_from_db_value], by class. *)
Definition _from_db_value (p : property) (val : value) : result value :=
  match class_of p with
  | TextProperty | StringProperty =>
      match val with
      | VStr s => decode_utf8 s
      | _ => Ok val
      end
  | _ => Ok val
  end.

(** [Property.from_db_value] *)
Definition from_db_value (p : property) (val : value) : result value :=
  _from_db_value p val.

(** *** Attribute access on an instance *)


(** [Property.__get__] *)
Definition __get__ (p : property) (instance : fields) : result value :=
  from_base_type p (default VNone (instance !! _name p)).

(** [Property.__set__] *)
Definition __set__ (p : property) (instance : fields) (val : value)
    : result fields :=
  val ← validate p val;
  b ← to_base_type p val;
  Ok (<[_name p := b]> instance).

(** [Property._fix_up] *)
Definition _fix_up (name : string) (p : property) : property :=
  match _name p with
  | None => set_name (Some name) p
  | Some _ => p
  end.

End Pipeline.


(** ** Keys *)

(** Truth value of a value, as [if] and [not] take it. *)
Definition py_truth (v : value) : bool :=
  match v with
  | VNone => false
  | VBool b => b
  | VInt n => negb (n =? 0)
  | VFloat f => negb (SFeqb f (S754_zero false))
  | VStr s => negb (bool_decide (s = EmptyString))
  | VUnicode u => negb (bool_decide (u = []))
  | VDateTime _ | VDate _ => true
  | VTime t => negb (time_eqb t midnight)
  end.

(** Truth value of an optional sequence: [None] and the empty sequence are
    false. *)
Definition seq_truth {A : Type} (o : option (list A)) : bool :=
  match o with
  | Some (_ :: _) => true
  | _ => false
  end.

(** One element of a key path: [{'kind': kind, 'id': id}] or
    [{'kind': kind, 'name': name}]. *)
Inductive segment : Type :=
| SegId (kind : value) (id : value)
| SegName (kind : value) (name : value).

Definition segment_kind (s : segment) : value :=
  match s with SegId k _ | SegName k _ => k end.

(** The keyword arguments [Key.__init__] reads with [kwargs.get]. *)
Record key_kwargs : Type := KeyKwargs {
  app : value;
  namespace : value;
  pairs : option (list (value * value));
  flat : option (list value);
  urlsafe : value;
  path : option (list segment)
}.

Definition no_key_kwargs : key_kwargs :=
  KeyKwargs VNone VNone None None VNone None.

(** A key, as [Key.__init__] hands it to the base constructor:
    [key.Key.__init__(path, namespace=namespace, dataset_id=app)]. *)
Record Key : Type := mkKey {
  key_path : list segment;
  key_namespace : value;
  key_dataset_id : value
}.

(** [[(flat[i], flat[i+1]) for i in range(0, len(flat), 2)]], which runs
    after the length was asserted even. *)
Fixpoint pairs_of_flat (flat : list value) : list (value * value) :=
  match flat with
  | kind :: _id :: rest => (kind, _id) :: pairs_of_flat rest
  | _ => []
  end.

(** The loop over [pairs] that appends one segment per pair. *)
Fixpoint path_of_pairs (pairs : list (value * value))
    : result (list segment) :=
  match pairs with
  | [] => Ok []
  | (kind, _id) :: rest =>
      seg ← (if isinstance_int _id then Ok (SegId kind _id)
             else if isinstance_basestring _id then Ok (SegName kind _id)
             else Raise SyntaxError);
      path ← path_of_pairs rest;
      Ok (seg :: path)
  end.

(** [Key.__init__(self, *args, **kwargs)] *)
Definition Key___init__ (args : list value) (kw : key_kwargs) : result Key :=
  if py_truth (urlsafe kw) then Raise NotImplementedError
  else
    path ← (if negb (seq_truth (path kw)) then
              pairs ← (if negb (seq_truth (pairs kw)) then
                         let flat := if negb (seq_truth (flat kw))
                                     then args
                                     else default [] (flat kw) in
                         py_assert (Nat.even (length flat));;
                         Ok (pairs_of_flat flat)
                       else Ok (default [] (pairs kw)));
              path_of_pairs pairs
            else Ok (default [] (path kw)));
    Ok (mkKey path (namespace kw) (app kw)).

(** Modelled from the spec: the kind of a key, which [key.Key.kind()] of the
    storage client's base class returns and this module does not define; the
    kind of the last segment of the path. *)
Definition key_kind (k : Key) : value :=
  match last (key_path k) with
  | Some seg => segment_kind seg
  | None => VStr ""
  end.

(** ** Models *)

(** A raw entity of the storage client: its key and its [dict] of stored
    values. *)
Record Entity : Type := mkEntity {
  entity_key : Key;
  entity_fields : fields
}.

(** A subclass of [Model] after its declaration ran the metaclass:
    [attributes] are the [Property] entries of the class's [__dict__], fixed
    up, and [_properties] maps each storage name to its property. *)
Record model_class : Type := ModelClass {
  __name__ : string;
  attributes : gmap string property;
  _properties : gmap (option string) property
}.

(** An instance: its class, its key and its [dict] content. *)
Record Model : Type := mkModel {
  model_class_of : model_class;
  _key : Key;
  model_fields : fields
}.

(** A [Property] object of a class body: its identity, and its state when
    the class statement ends.  One object can be bound to several names
    ([a = b = IntegerProperty()]); the bindings of one object carry one
    identity. *)
Record object : Type := Obj { object_id : N; object_state :> property }.

(** What the loop of [_fix_up_properties] has built: the state of the
    objects it has fixed up, the attributes by name, and [cls._properties]. *)
Definition class_state : Type :=
  gmap N property * gmap string property * gmap (option string) property.

(** One turn of the loop: [attr = cls.__dict__[name]], whose state is the
    one an earlier turn left if the object was met under another name;
    [attr._fix_up(cls, name)], which changes the object in place;
    [cls._properties[attr._name] = attr]. *)
Definition _fix_up_properties_step (name : string) (attr : object)
    (st : class_state) : class_state :=
  let '(objects, attrs, props) := st in
  let prop := _fix_up name (default (object_state attr)
                              (objects !! object_id attr)) in
  (<[object_id attr := prop]> objects, <[name := prop]> attrs,
   <[_name prop := prop]> props).

(** [Model._fix_up_properties], run by [MetaModel.__init__]: fixes up every
    [Property] of the class body, collects them under their storage names and
    registers the class under its name in [_kind_map].  [classdict] holds
    the [Property] entries of [cls.__dict__]; the loop visits them in the
    order of the dictionary. *)
Definition _fix_up_properties (name : string)
    (classdict : gmap string object) (_kind_map : gmap string model_class)
    : model_class * gmap string model_class :=
  let '(_, attrs, props) :=
    map_fold _fix_up_properties_step (∅, ∅, ∅) classdict in
  let cls := ModelClass name attrs props in
  (cls, <[name := cls]> _kind_map).

(** [Model._lookup_model]: [cls._kind_map[kind]].  The registry is keyed by
    class names, which are [str]; an ASCII [unicode] hashes and compares as
    the same key. *)
Definition _lookup_model (_kind_map : gmap string model_class) (kind : value)
    : result model_class :=
  let found :=
    match kind with
    | VStr s => _kind_map !! s
    | VUnicode u =>
        if forallb (fun c => c <? 0x80)%N u
        then _kind_map !! string_of_list_ascii (map ascii_of_N u)
        else None
    | _ => None
    end in
  match found with
  | Some cls => Ok cls
  | None => Raise KeyError
  end.

Section Models.

Variable json : json_module.

(** The storage client bound to the module global [dataset]:
    [dataset.get_entities(keys)]. *)
Variable get_entities : list Key → list (option Entity).

(** [Key.from_path(kind, id)] of the base class. *)
Variable from_path : string → value → Key.

(** The clock: [utcnow t] is what the [t]-th call of
    [datetime.datetime.utcnow()] returns. *)
Variable utcnow : nat → datetime.

(** [getattr(entity, name)] for a name the class binds to a property, a data
    descriptor.  Names the class does not bind to a property are answered
    with [AttributeError]. *)
Definition getattr (entity : Model) (name : option string) : result value :=
  match name with
  | None => Raise TypeError
  | Some n =>
      match attributes (model_class_of entity) !! n with
      | Some prop => __get__ json prop (model_fields entity)
      | None => Raise AttributeError
      end
  end.

(** [setattr(entity, name, value)], likewise. *)
Definition setattr (entity : Model) (name : option string) (val : value)
    : result Model :=
  match name with
  | None => Raise TypeError
  | Some n =>
      match attributes (model_class_of entity) !! n with
      | Some prop =>
          f ← __set__ json prop (model_fields entity) val;
          Ok (mkModel (model_class_of entity) (_key entity) f)
      | None => Raise AttributeError
      end
  end.

(** [_now], by class; the second component is the clock afterwards. *)
Definition _now (p : property) (clock : nat) : value * nat :=
  match class_of p with
  | DateProperty => (VDate (dt_date (utcnow clock)), S clock)
  | _ => (VDateTime (utcnow clock), S clock)
  end.

(** [_prepare_for_put], by class: [DateTimeProperty]'s for the date-time
    family, the empty one of [Property] otherwise. *)
Definition _prepare_for_put (p : property) (entity : Model) (clock : nat)
    : result (Model * nat) :=
  if is_datetime_class (class_of p) then
    v ← getattr entity (_name p);
    '(entity, clock) ←
      (if is_none v && _auto_now_add p then
         let '(now, clock) := _now p clock in
         entity ← setattr entity (_name p) now;
         Ok (entity, clock)
       else Ok (entity, clock));
    if _auto_now p then
      let '(now, clock) := _now p clock in
      entity ← setattr entity (_name p) now;
      Ok (entity, clock)
    else Ok (entity, clock)
  else Ok (entity, clock).

(** The loop of [Model.from_entity] over [cls._properties]:
    [obj[name] = cls._properties[name].from_db_value(entity.get(name))]. *)
Fixpoint from_entity_loop (props : list (option string * property))
    (entity : Entity) (obj : fields) : result fields :=
  match props with
  | [] => Ok obj
  | (name, prop) :: rest =>
      let val := default VNone (entity_fields entity !! name) in
      v ← from_db_value prop val;
      from_entity_loop rest entity (<[name := v]> obj)
  end.

(** [Model.from_entity]: a fresh instance of [cls] with the entity's key and
    every schema field decoded from the entity. *)
Definition from_entity (cls : model_class) (entity : Entity) : result Model :=
  obj ← from_entity_loop (map_to_list (_properties cls)) entity ∅;
  Ok (mkModel cls (entity_key entity) obj).

(** The loop of [Model.get_multi]. *)
Fixpoint Model_get_multi_loop (cls : model_class)
    (entities : list (option Entity)) (results : list (option Model))
    : result (list (option Model)) :=
  match entities with
  | [] => Ok results
  | entity :: rest =>
      match entity with
      | None => Model_get_multi_loop cls rest (results ++ [None])
      | Some e =>
          obj ← from_entity cls e;
          Model_get_multi_loop cls rest (results ++ [Some obj])
      end
  end.

(** [Model.get_multi(cls, ids)] *)
Definition Model_get_multi (cls : model_class) (ids : list value)
    : result (list (option Model)) :=
  let entities := get_entities (map (from_path (__name__ cls)) ids) in
  Model_get_multi_loop cls entities [].

(** [entity.key()] on an element of the fetched list: [None] has no such
    attribute. *)
Definition entity_key_call (entity : option Entity) : result Key :=
  match entity with
  | Some e => Ok (entity_key e)
  | None => Raise AttributeError
  end.

(** The loop of the module-level [get_multi]: the [if] that appends [None]
    has no [else], so the statements after it run for every element. *)
Fixpoint get_multi_loop (_kind_map : gmap string model_class)
    (entities : list (option Entity)) (results : list (option Model))
    : result (list (option Model)) :=
  match entities with
  | [] => Ok results
  | entity :: rest =>
      let results :=
        match entity with
        | None => results ++ [None]
        | Some _ => results
        end in
      k ← entity_key_call entity;
      let kind := key_kind k in
      model ← _lookup_model _kind_map kind;
      obj ← match entity with
            | Some e => from_entity model e
            | None => Raise AttributeError
            end;
      get_multi_loop _kind_map rest (results ++ [Some obj])
  end.

(** [get_multi(keys)] of the module. *)
Definition get_multi (_kind_map : gmap string model_class) (keys : list Key)
    : result (list (option Model)) :=
  get_multi_loop _kind_map (get_entities keys) [].

End Models.

(** ** The rest of the module *)

(** [Property.__del__(self, instance)]: [instance.pop(self._name, None)].
    It is an ordinary method: [del obj.attr] looks for [__delete__]. *)
Definition __del__ (p : property) (instance : fields) : fields :=
  delete (_name p) instance.

Section Put.

Variable json : json_module.
Variable utcnow : nat → datetime.

(** [Entity.save] of the base class, and what it returns. *)
Variable saved : Type.
Variable save : Model → result saved.

(** The loop of [Model.put] over [self._properties.items()]. *)
Fixpoint put_loop (props : list (option string * property)) (self : Model)
    (clock : nat) : result (Model * nat) :=
  match props with
  | [] => Ok (self, clock)
  | (name, prop) :: rest =>
      '(self, clock) ← _prepare_for_put json utcnow prop self clock;
      put_loop rest self clock
  end.

(** [Model.put]: every hook, then [self.save()].  An exception leaves [put]
    as [Raise]; the instance it leaves behind is not part of the result. *)
Definition put (self : Model) (clock : nat)
    : result (saved * Model * nat) :=
  '(self, clock) ←
    put_loop (map_to_list (_properties (model_class_of self))) self clock;
  r ← save self;
  Ok (r, self, clock).

End Put.

(** The truth value of an entity, a [dict]: whether it holds a field. *)
Definition entity_truth (entity : Entity) : bool :=
  negb (size (entity_fields entity) =? 0)%nat.

Section GetById.

(** [dataset.get_entity(key)] of the storage client, [None] for a key it
    does not resolve, and [Key.from_path]. *)
Variable get_entity : Key → option Entity.
Variable from_path : string → value → Key.

(** [Model.get_by_id(cls, id)]; without a true entity the method falls off
    its end and returns [None]. *)
Definition get_by_id (cls : model_class) (id : value)
    : result (option Model) :=
  match get_entity (from_path (__name__ cls) id) with
  | Some entity =>
      if entity_truth entity
      then obj ← from_entity cls entity; Ok (Some obj)
      else Ok None
  | None => Ok None
  end.

End GetById.

(** ** Notions the statements use *)

(** [P.from_base_type(P.to_base_type(v))] *)
Definition roundtrip (json : json_module) (p : property) (v : value)
    : result value :=
  b ← to_base_type json p v; from_base_type json p b.

(** Where the round trip gives back its argument: [None] everywhere; every
    value for the classes that store values as given and for a blob that is
    not compressed; text for [TextProperty] and [StringProperty]; a date that
    is not a date-time for [DateProperty]; a time for [TimeProperty], naive
    as every time of the fragment is. *)
Definition returns_as_given (p : property) (v : value) : bool :=
  is_none v
  || match class_of p with
     | Property | BooleanProperty | IntegerProperty | FloatProperty
     | DateTimeProperty => true
     | BlobProperty => negb (_compressed p)
     | TextProperty | StringProperty => isinstance_unicode v
     | PickleProperty | JsonProperty => false
     | DateProperty => match v with VDate _ => true | _ => false end
     | TimeProperty => isinstance_time v
     end.

(** Where the round trip gives back another value that equals its argument:
    an ASCII byte string for [TextProperty] and [StringProperty], which
    comes back as text. *)
Definition returns_equal_text (p : property) (v : value) : bool :=
  match class_of p, v with
  | (TextProperty | StringProperty), VStr s =>
      forallb (fun b => b <? 0x80)%N (bytes_of s)
  | _, _ => false
  end.

(** The flattened form of a list of pairs: kind, identifier, kind,
    identifier, and so on. *)
Fixpoint flat_of_pairs (ps : list (value * value)) : list value :=
  match ps with
  | [] => []
  | (kind, _id) :: rest => kind :: _id :: flat_of_pairs rest
  end.

(** [entity] with the field [n] set to [v]. *)
Definition with_field (entity : Model) (n : string) (v : value) : Model :=
  mkModel (model_class_of entity) (_key entity)
    (<[Some n := v]> (model_fields entity)).

(** An identifier [Key.__init__] takes: an [int], [long] or [bool], or a
    [str] or [unicode]. *)
Definition valid_pair (kp : value * value) : bool :=
  isinstance_int kp.2 || isinstance_basestring kp.2.

(** The segment of a pair with a valid identifier. *)
Definition segment_of (kp : value * value) : segment :=
  if isinstance_int kp.2 then SegId kp.1 kp.2 else SegName kp.1 kp.2.

(** The values the [isinstance] test of a class lets through. *)
Definition class_accepts (c : prop_class) (v : value) : bool :=
  match c with
  | Property | PickleProperty | JsonProperty => true
  | BooleanProperty => isinstance_bool v
  | IntegerProperty => isinstance_int v
  | FloatProperty => isinstance_number v
  | BlobProperty => isinstance_str v
  | TextProperty | StringProperty => isinstance_basestring v
  | DateTimeProperty => isinstance_datetime v
  | DateProperty => isinstance_date v
  | TimeProperty => isinstance_time v
  end.

(** [p] without its custom validator. *)
Definition without_validator (p : property) : property :=
  mkProperty (class_of p) (_name p) (_indexed p) (_repeated p) (_required p)
    (_default p) (_choices p) None (_compressed p) (_schema p)
    (_auto_now_add p) (_auto_now p).

(** Whether [indexed] defaults to true for a class. *)
Definition indexed_by_default (c : prop_class) : bool :=
  match c with TextProperty => false | _ => true end.

(** Whether a call passes a keyword the constructor of [c] does not take:
    [compressed] outside the blob family, [schema] to another class than
    [JsonProperty], [auto_now_add] or [auto_now] outside the date-time
    family. *)
Definition foreign_keyword (c : prop_class) (kw : kwargs) : bool :=
  (passed (kw_compressed kw) && negb (is_blob_class c))
  || (passed (kw_schema kw)
      && match c with JsonProperty => false | _ => true end)
  || ((passed (kw_auto_now_add kw) || passed (kw_auto_now kw))
      && negb (is_datetime_class c)).

(** The base type of a class: what a field written through the property
    holds when it does not hold [None]. *)
Definition base_type_of (c : prop_class) (b : value) : bool :=
  match c with
  | Property | PickleProperty | JsonProperty => true
  | BooleanProperty => isinstance_bool b
  | IntegerProperty => isinstance_int b
  | FloatProperty => isinstance_number b
  | BlobProperty => isinstance_str b
  | TextProperty | StringProperty => isinstance_unicode b
  | DateTimeProperty => isinstance_datetime b
  | DateProperty =>
      match b with
      | VDateTime dt => time_eqb (dt_time dt) midnight
      | _ => false
      end
  | TimeProperty =>
      match b with
      | VDateTime dt => date_eqb (dt_date dt) epoch_day
      | _ => false
      end
  end.

(** An element of the result of [Model.get_multi] against the fetched
    element it was made from: [None] for [None], and otherwise the instance
    that [from_entity] returns. *)
Definition loaded_as (cls : model_class) (entity : option Entity)
    (r : option Model) : Prop :=
  match entity, r with
  | None, None => True
  | Some e, Some obj => from_entity cls e = Ok obj
  | _, _ => False
  end.

(** The same for the module's [get_multi]: the instance that the class
    registered under the kind of the entity's key returns. *)
Definition loaded_by_kind (_kind_map : gmap string model_class)
    (entity : option Entity) (r : option Model) : Prop :=
  match entity, r with
  | Some e, Some obj =>
      ∃ cls, _lookup_model _kind_map (key_kind (entity_key e)) = Ok cls
             ∧ from_entity cls e = Ok obj
  | _, _ => False
  end.

(** Whether the pre-put hook of [p] may write: a property of the date-time
    family with [auto_now_add] or [auto_now]. *)
Definition stamped (p : property) : bool :=
  is_datetime_class (class_of p) && (_auto_now_add p || _auto_now p).

(** [p] with other values of the three attributes that are kept for the
    storage layer: [_indexed], [_repeated] and [_schema]. *)
Definition with_flags (indexed repeated : bool) (schema : value)
    (p : property) : property :=
  mkProperty (class_of p) (_name p) indexed repeated (_required p)
    (_default p) (_choices p) (_validator p) (_compressed p) schema
    (_auto_now_add p) (_auto_now p).

(** The classes whose conversion to the base type the module can carry
    out: all but [PickleProperty], [JsonProperty] and a compressed
    [BlobProperty]. *)
Definition converts (p : property) : bool :=
  match class_of p with
  | PickleProperty | JsonProperty => false
  | BlobProperty => negb (_compressed p)
  | _ => true
  end.

(** What the loop of [_fix_up_properties] keeps true, [m] being the part of
    the class body it has visited: every object met has a storage name and
    is bound in [m]; every name of [m] is an attribute, in the state of its
    object; [_properties] files attributes under their own storage names,
    and every attribute's storage name is filed; an object bound to one name
    only was fixed up with that name; and when no object of [m] came with a
    name, the storage name of every object met is the name of an attribute
    that is this object. *)
Definition fold_invariant (st : class_state) (m : gmap string object)
    : Prop :=
  let '(objects, attrs, props) := st in
  (∀ a q, objects !! a = Some q → is_Some (_name q))
  ∧ (∀ a, is_Some (objects !! a) → ∃ n o, m !! n = Some o ∧ object_id o = a)
  ∧ (∀ n o, m !! n = Some o →
       ∃ p, attrs !! n = Some p ∧ objects !! object_id o = Some p)
  ∧ (∀ n, m !! n = None → attrs !! n = None)
  ∧ (∀ k p, props !! k = Some p → _name p = k ∧ ∃ n, attrs !! n = Some p)
  ∧ (∀ n p, attrs !! n = Some p → is_Some (props !! _name p))
  ∧ (∀ n o, m !! n = Some o →
       (∀ n' o', m !! n' = Some o' → object_id o' = object_id o → n' = n) →
       attrs !! n = Some (_fix_up n o))
  ∧ (map_Forall (fun _ o => _name (object_state o) = None) m →
     ∀ a p, objects !! a = Some p →
            ∃ n, _name p = Some n ∧ attrs !! n = Some p).

(** No object of a class body is bound to two names. *)
Definition unshared (classdict : gmap string object) : Prop :=
  NoDup ((fun no => object_id no.2) <$> map_to_list classdict).

(** What [_now] returns at the reading [t] of the clock: the date-time
    read, and for a [DateProperty] its date. *)
Definition reading (utcnow : nat → datetime) (p : property) (t : nat)
    : value :=
  (_now utcnow p t).1.


(** ** Instances *)

(** A JSON module for the examples below, none of which is about a
    [JsonProperty]: they never call it. *)
Definition no_json : json_module :=
  JsonModule (fun _ => Raise TypeError) (fun _ => Raise TypeError).

(** The two bytes of U+00E9 in UTF-8. *)
Definition e_acute : string :=
  String (ascii_of_N 195) (String (ascii_of_N 169) EmptyString).

(** [Property(required=True)] *)
Definition required_property : property :=
  mkProperty Property None true false true VNone None None false VNone
    false false.

(** [IntegerProperty(choices=[1, 2])] *)
Definition choice_property : property :=
  mkProperty IntegerProperty (Some "level") true false false VNone
    (Some [VInt 1; VInt 2]) None false VNone false false.

(** [StringProperty(default='anonymous')], declared as [name]. *)
Definition defaulted_property : property :=
  mkProperty StringProperty (Some "name") true false false VNone None None
    false VNone false false.

(** [TextProperty()] *)
Definition text_property : property :=
  mkProperty TextProperty None false false false VNone None None false VNone
    false false.

(** [BlobProperty(compressed=True, indexed=False)] *)
Definition compressed_property : property :=
  mkProperty BlobProperty None false false false VNone None None true VNone
    false false.

(** A clock that reads one day later at every call. *)
Definition daily_clock (t : nat) : datetime :=
  DateTime (Date 2014 6 (Z.of_nat t + 1)) (Time 12 0 0 0).

(** [created = DateTimeProperty(auto_now_add=True)] *)
Definition created : property :=
  mkProperty DateTimeProperty (Some "created") true false false VNone None
    None false VNone true false.

(** [updated = DateTimeProperty(auto_now=True)] *)
Definition updated : property :=
  mkProperty DateTimeProperty (Some "updated") true false false VNone None
    None false VNone false true.

(** [touched = DateTimeProperty(auto_now_add=True, auto_now=True)] *)
Definition touched : property :=
  mkProperty DateTimeProperty (Some "touched") true false false VNone None
    None false VNone true true.

Definition new_year : datetime := DateTime (Date 2014 1 1) midnight.

(** [opened = DateTimeProperty(auto_now_add=True, choices=[new_year])] *)
Definition opened : property :=
  mkProperty DateTimeProperty (Some "opened") true false false VNone
    (Some [VDateTime new_year]) None false VNone true false.

(** The class [Event] that declares the four. *)
Definition Event : model_class :=
  fst (_fix_up_properties "Event"
         {[ "created" := Obj 1 (set_name None created);
            "updated" := Obj 2 (set_name None updated);
            "touched" := Obj 3 (set_name None touched);
            "opened" := Obj 4 (set_name None opened) ]} ∅).

(** [Key("Event", 1)] *)
Definition event_key : Key :=
  mkKey [SegId (VStr "Event") (VInt 1)] VNone VNone.

(** An event with no field set, and one whose three stamps are set. *)
Definition new_event : Model := mkModel Event event_key ∅.


(** [count = IntegerProperty()] *)
Definition count_property : property :=
  mkProperty IntegerProperty (Some "count") true false false VNone None None
    false VNone false false.

(** A validator that takes even integers and doubles them. *)
Definition doubling : validator :=
  fun v =>
    match v with
    | VInt n => if Z.even n then Ok (VInt (2 * n)) else Raise AssertionError
    | _ => Raise TypeError
    end.

(** [IntegerProperty(validator=doubling)] *)
Definition doubled_property : property :=
  mkProperty IntegerProperty (Some "doubled") true false false VNone None
    (Some doubling) false VNone false false.

(** [birthday = DateProperty()] *)
Definition birthday_property : property :=
  mkProperty DateProperty (Some "birthday") true false false VNone None None
    false VNone false false.

(** The body of the class [Event]: what its declaration binds. *)
Definition Event_body : gmap string object :=
  {[ "created" := Obj 1 (set_name None created);
     "updated" := Obj 2 (set_name None updated);
     "touched" := Obj 3 (set_name None touched);
     "opened" := Obj 4 (set_name None opened) ]}.

(** A class with one plain property: [count = IntegerProperty()]. *)
Definition Tally : model_class :=
  fst (_fix_up_properties "Tally"
         {[ "count" := Obj 1 (set_name None count_property) ]} ∅).

(** [at = TimeProperty(auto_now=True)], and the class that declares it. *)
Definition at_property : property :=
  mkProperty TimeProperty (Some "at") true false false VNone None None false
    VNone false true.

Definition Alarm : model_class :=
  fst (_fix_up_properties "Alarm"
         {[ "at" := Obj 1 (set_name None at_property) ]} ∅).

(** A class with a plain property and a stamped one:
    [text = TextProperty()], [updated = DateTimeProperty(auto_now=True)]. *)
Definition Note_body : gmap string object :=
  {[ "text" := Obj 1 text_property;
     "updated" := Obj 2 (set_name None updated) ]}.

Definition Note : model_class := fst (_fix_up_properties "Note" Note_body ∅).

(** A note that also holds a field of no property. *)
Definition a_note : Model :=
  mkModel Note event_key
    {[ Some "text" := VUnicode [104%N]; Some "colour" := VStr "red" ]}.

Definition a_tally : Model :=
  mkModel Tally event_key {[ Some "count" := VInt 3 ]}.

(** A [save] that succeeds and returns nothing. *)
Definition saving : Model → result unit := fun _ => Ok tt.

(** [a = b = IntegerProperty()]: one object under two names. *)
Definition Pair_body : gmap string object :=
  {[ "a" := Obj 1 (set_name None count_property);
     "b" := Obj 1 (set_name None count_property) ]}.

Definition Pair : model_class := fst (_fix_up_properties "Pair" Pair_body ∅).



(** ** Examples *)

Example decode_e_acute : decode_utf8 e_acute = Ok (VUnicode [233%N]).
Proof. reflexivity. Qed.

Example decode_truncated :
  decode_utf8 (String (ascii_of_N 195) EmptyString) = Raise UnicodeDecodeError.
Proof. reflexivity. Qed.

Example float_of_three :
  float_of_Z 3 = Ok (VFloat (S754_finite false 6755399441055744 (-51))).
Proof. reflexivity. Qed.

Example float_of_huge : float_of_Z (2 ^ 1024) = Raise OverflowError.
Proof. vm_compute. reflexivity. Qed.

Example one_eq_true : py_eq (VInt 1) (VBool true) = true.
Proof. reflexivity. Qed.

Example three_eq_float :
  py_eq (VInt 3) (VFloat (S754_finite false 6755399441055744 (-51))) = true.
Proof. vm_compute. reflexivity. Qed.

(** ** Membership *)

Lemma py_eq_None_r (x : value) : py_eq x VNone = true ↔ x = VNone.
Proof. destruct x; simpl; split; congruence. Qed.

Lemma py_in_None (cs : list value) : py_in VNone cs = true ↔ In VNone cs.
Proof.
  unfold py_in. rewrite existsb_exists. split.
  - intros (x & Hx & Heq). apply py_eq_None_r in Heq. by subst.
  - intros H. exists VNone. split; [done | reflexivity].
Qed.

(** ** Validation *)

Section Validation.

Variable json : json_module.

(** C4: for every property, of every class and configuration,
    [to_base_type(None)] and [from_base_type(None)] return [None]: the
    absent value passes through both directions unchanged. *)
Theorem none_passes_through (p : property) :
  to_base_type json p VNone = Ok VNone
  ∧ from_base_type json p VNone = Ok VNone.
Proof. split; reflexivity. Qed.

Lemma validate_required_present (p : property) (v : value) :
  _required p = true → v ≠ VNone → validate p v = Raise AssertionError.
Proof.
  intros Hreq Hv. unfold validate. rewrite Hreq.
  destruct (match _choices p with None => _ | Some _ => _ end);
    [| reflexivity].
  destruct v; try contradiction; reflexivity.
Qed.

Lemma validate_None (p : property) :
  match _choices p with None => true | Some cs => py_in VNone cs end = true →
  validate p VNone = Ok VNone.
Proof.
  intros Hchoice. unfold validate. rewrite Hchoice. simpl.
  rewrite andb_false_r. reflexivity.
Qed.

(** C1, as the code has it: the assertion on [_required] is inverted.  A
    required property rejects every present value with [ValidationError] and
    accepts [None] (when the choice set, if any, lets [None] through). *)
Theorem validate_required_inverted (p : property) :
  _required p = true →
  (∀ v, v ≠ VNone → validate p v = Raise ValidationError)
  ∧ (_choices p = None → validate p VNone = Ok VNone).
Proof.
  intros Hreq. split.
  - intros v Hv. by apply validate_required_present.
  - intros Hc. apply validate_None. by rewrite Hc.
Qed.

Lemma validate_choices_reject (p : property) (cs : list value) (v : value) :
  _choices p = Some cs → py_in v cs = false →
  validate p v = Raise AssertionError.
Proof. intros Hc Hin. unfold validate. rewrite Hc, Hin. reflexivity. Qed.

(** C10: a property whose choice set does not contain [None] rejects [None]
    with [ValidationError], required or not, because membership is asserted
    before the [None] exit; so the attribute-set path can neither assign nor
    clear the field to [None]. *)
Theorem choices_reject_None (p : property) (cs : list value) :
  _choices p = Some cs → ¬ In VNone cs →
  validate p VNone = Raise ValidationError
  ∧ ∀ instance, __set__ json p instance VNone = Raise ValidationError.
Proof.
  intros Hc Hnot.
  assert (Hin : py_in VNone cs = false).
  { destruct (py_in VNone cs) eqn:E; [| done].
    apply py_in_None in E. contradiction. }
  assert (Hv : validate p VNone = Raise AssertionError)
    by (by apply validate_choices_reject with cs).
  split; [exact Hv |].
  intros instance. unfold __set__. rewrite Hv. reflexivity.
Qed.

(** A property that is not required, with no choice set and no validator,
    accepts what its class's [_validate] accepts and returns it as given. *)
Lemma validate_plain (p : property) (v w : value) :
  _required p = false → _choices p = None → _validator p = None →
  _validate p v = Ok w → validate p v = Ok v.
Proof.
  intros Hreq Hc Hval Hv. unfold validate.
  rewrite Hc, Hreq, Hval. simpl.
  destruct (is_none v) eqn:E.
  - by destruct v.
  - rewrite Hv. reflexivity.
Qed.

(** *** The default *)

Lemma get_unset (p : property) (instance : fields) :
  instance !! _name p = None → __get__ json p instance = Ok VNone.
Proof. intros H. unfold __get__. rewrite H. reflexivity. Qed.

(** C9: reading a property of an instance whose field was never set returns
    [None] whatever default the property was declared with, and no operation
    of the property consults the default: reading, writing, validation, the
    three conversions and the pre-put hook give the same result for every
    default. *)
Theorem default_never_consulted (p : property) (d : value) :
  (∀ instance, instance !! _name p = None →
     __get__ json (set_default d p) instance = Ok VNone)
  ∧ (∀ instance,
       __get__ json (set_default d p) instance = __get__ json p instance)
  ∧ (∀ instance v,
       __set__ json (set_default d p) instance v = __set__ json p instance v)
  ∧ (∀ v, validate (set_default d p) v = validate p v)
  ∧ (∀ v, to_base_type json (set_default d p) v = to_base_type json p v)
  ∧ (∀ v, from_base_type json (set_default d p) v = from_base_type json p v)
  ∧ (∀ v, from_db_value (set_default d p) v = from_db_value p v)
  ∧ (∀ utcnow entity clock,
       _prepare_for_put json utcnow (set_default d p) entity clock
       = _prepare_for_put json utcnow p entity clock).
Proof.
  repeat split; try reflexivity.
  intros instance H. by apply get_unset.
Qed.

End Validation.

(** ** The round trip through the base type *)

Section Roundtrip.

Variable json : json_module.

Lemma utf8_decode_ascii (bs : list N) :
  forallb (fun b => b <? 0x80)%N bs = true → utf8_decode bs = Some bs.
Proof.
  induction bs as [|b bs IH]; [reflexivity |].
  cbn [forallb]. intros [Hb Hbs]%andb_true_iff.
  cbn [utf8_decode]. rewrite Hb, (IH Hbs). reflexivity.
Qed.

(** C3, amended: for every property [p] and value [v] in the domain
    [returns_as_given] (which has the naive times for a [TimeProperty]),
    [from_base_type(to_base_type(v))] returns [v] itself; and for an ASCII
    byte string given to a text property it returns the text of the same
    characters, which equals the byte string. *)
Theorem roundtrip_returns_value (p : property) (v : value) :
  (returns_as_given p v = true → roundtrip json p v = Ok v)
  ∧ (returns_equal_text p v = true →
     ∃ u, roundtrip json p v = Ok (VUnicode u)
          ∧ py_eq (VUnicode u) v = true).
Proof.
  split.
  - unfold returns_as_given, roundtrip, to_base_type, from_base_type.
    destruct v; simpl; try reflexivity;
      unfold _to_base_type, _from_base_type,
        BlobProperty__to_base_type, BlobProperty__from_base_type;
      destruct (class_of p); simpl; try discriminate; try reflexivity;
      destruct (_compressed p); simpl; try discriminate; reflexivity.
  - unfold returns_equal_text, roundtrip, to_base_type, from_base_type,
      _to_base_type, _from_base_type, decode_utf8.
    destruct (class_of p); try discriminate;
      destruct v; try discriminate; intros Hs; exists (bytes_of s);
      simpl; rewrite (utf8_decode_ascii _ Hs); simpl;
      unfold ascii_decode; rewrite Hs;
      (split; [reflexivity |]); unfold list_N_eqb;
      by apply bool_decide_eq_true.
Qed.

(** A byte string given to a text property comes back decoded. *)
Lemma roundtrip_text_bytes (p : property) (s : string) :
  class_of p = TextProperty ∨ class_of p = StringProperty →
  roundtrip json p (VStr s) = decode_utf8 s.
Proof.
  intros [H|H]; unfold roundtrip, to_base_type, from_base_type,
    _to_base_type, _from_base_type; rewrite H; simpl;
    unfold decode_utf8; destruct (utf8_decode (bytes_of s)); reflexivity.
Qed.

(** A compressed blob reads the global [zlib], which the module never
    binds, in both directions. *)
Lemma compressed_blob_raises (p : property) (v : value) :
  class_of p = BlobProperty → _compressed p = true → v ≠ VNone →
  to_base_type json p v = Raise (NameError "zlib")
  ∧ from_base_type json p v = Raise (NameError "zlib").
Proof.
  intros Hc Hz Hv.
  unfold to_base_type, from_base_type, _to_base_type, _from_base_type,
    BlobProperty__to_base_type, BlobProperty__from_base_type.
  rewrite Hc, Hz. destruct v; try contradiction; split; reflexivity.
Qed.

(** A pickle property reads the global [pickle], which the module never
    binds, in both directions. *)
Lemma pickle_raises (p : property) (v : value) :
  class_of p = PickleProperty → v ≠ VNone →
  to_base_type json p v = Raise (NameError "pickle")
  ∧ from_base_type json p v = Raise (NameError "pickle").
Proof.
  intros Hc Hv.
  unfold to_base_type, from_base_type, _to_base_type, _from_base_type.
  rewrite Hc. destruct v; try contradiction; split; reflexivity.
Qed.

End Roundtrip.

(** ** Construction *)

(** C7: contradictory configuration fails at construction with
    [ConfigError].  A property of the blob family constructed with
    [compressed=True] and [indexed=True], and a property of the date-time
    family constructed with [auto_now_add=True] or [auto_now=True] together
    with [repeated=True], both given only keywords their class takes. *)
Theorem contradictory_config_fails (c : prop_class) (name : option string)
    (kw : kwargs) :
  (is_blob_class c = true →
   kw_compressed kw = Some true → kw_indexed kw = Some true →
   kw_auto_now_add kw = None → kw_auto_now kw = None →
   (c = JsonProperty ∨ kw_schema kw = None) →
   construct c name kw = Raise ConfigError)
  ∧ (is_datetime_class c = true →
     kw_repeated kw = Some true →
     (kw_auto_now_add kw = Some true ∨ kw_auto_now kw = Some true) →
     construct c name kw = Raise ConfigError).
Proof.
  split.
  - intros Hc Hz Hi Ha Hn Hs.
    destruct kw as [i r rq d ch va z sc a n]; simpl in *; subst.
    destruct c; try discriminate; destruct Hs as [Hs|Hs];
      try discriminate; subst; reflexivity.
  - intros Hc Hr Hauto.
    destruct kw as [i r rq d ch va z sc a n]; simpl in *; subst.
    destruct c; try discriminate;
      destruct Hauto as [->| ->]; simpl;
      unfold DateTimeProperty___init__; simpl;
      try reflexivity; destruct a as [[]|]; reflexivity.
Qed.

(** What the defaults give: a blob is indexed unless told otherwise, so
    [BlobProperty(compressed=True)] alone fails; a text property is not. *)
Example blob_compressed_alone :
  construct BlobProperty None
    (Kwargs None None None None None None (Some true) None None None)
  = Raise ConfigError.
Proof. reflexivity. Qed.

Example text_compressed_alone :
  is_ok (construct TextProperty None
           (Kwargs None None None None None None (Some true) None None None))
  = true.
Proof. reflexivity. Qed.

(** ** Keys *)

Lemma pairs_of_flat_of_pairs (ps : list (value * value)) :
  pairs_of_flat (flat_of_pairs ps) = ps.
Proof. induction ps as [|[k i] ps IH]; simpl; congruence. Qed.

(** Induction two elements at a time. *)
Lemma list_ind2 {A : Type} (P : list A → Prop) :
  P [] → (∀ a, P [a]) → (∀ a b l, P l → P (a :: b :: l)) → ∀ l, P l.
Proof.
  intros H0 H1 H2.
  assert (H : ∀ l, P l ∧ ∀ a, P (a :: l)).
  { induction l as [|b l [IH1 IH2]]; split; auto. }
  intros l. apply H.
Qed.

Lemma flat_of_pairs_of_flat (flat : list value) :
  Nat.even (length flat) = true → flat_of_pairs (pairs_of_flat flat) = flat.
Proof.
  induction flat as [| a | a b l IH] using list_ind2; simpl.
  - reflexivity.
  - discriminate.
  - intros H. by rewrite IH.
Qed.

(** C6: a flattened sequence of odd length, given positionally or as
    [flat=], with no [urlsafe], [path] or [pairs] to take its place, fails
    with [MalformedKeyError]; no key is constructed. *)
Theorem odd_flat_is_malformed (args : list value) (kw : key_kwargs) :
  py_truth (urlsafe kw) = false →
  seq_truth (path kw) = false →
  seq_truth (pairs kw) = false →
  Nat.odd (length (if seq_truth (flat kw) then default [] (flat kw)
                   else args)) = true →
  Key___init__ args kw = Raise MalformedKeyError.
Proof.
  intros Hu Hp Hq Hodd. unfold Key___init__.
  rewrite Hu, Hp, Hq. simpl.
  destruct (seq_truth (flat kw)); simpl in *;
    rewrite <- Nat.negb_odd, Hodd; reflexivity.
Qed.

(** C8: for a flattened sequence of even length, [pairs_of_flat] is its
    list of pairs (flattening it gives the sequence back), and the key built
    from the sequence given positionally is the key built from that list
    given as [pairs=]: same path, or the same failure. *)
Theorem flat_key_is_pairs_key (flat : list value) :
  Nat.even (length flat) = true →
  flat_of_pairs (pairs_of_flat flat) = flat
  ∧ ∀ app namespace,
      Key___init__ flat (KeyKwargs app namespace None None VNone None)
      = Key___init__ []
          (KeyKwargs app namespace (Some (pairs_of_flat flat)) None VNone
             None).
Proof.
  intros Heven. split; [by apply flat_of_pairs_of_flat |].
  intros app namespace. unfold Key___init__. simpl. rewrite Heven. simpl.
  destruct (pairs_of_flat flat) eqn:E; reflexivity.
Qed.

(** The example of the specification. *)
Example person_address_key :
  Key___init__ [VStr "Person"; VInt 1; VStr "Address"; VStr "home"]
    no_key_kwargs
  = Ok (mkKey [SegId (VStr "Person") (VInt 1);
               SegName (VStr "Address") (VStr "home")] VNone VNone)
  ∧ Key___init__ []
      (KeyKwargs VNone VNone
         (Some [(VStr "Person", VInt 1); (VStr "Address", VStr "home")])
         None VNone None)
    = Ok (mkKey [SegId (VStr "Person") (VInt 1);
                 SegName (VStr "Address") (VStr "home")] VNone VNone).
Proof. split; reflexivity. Qed.

Example float_identifier :
  Key___init__ [VStr "Person"; VFloat (S754_zero false)] no_key_kwargs
  = Raise InvalidIdentifierError.
Proof. reflexivity. Qed.

Example urlsafe_unsupported :
  Key___init__ [] (KeyKwargs VNone VNone None None (VStr "agx") None)
  = Raise NotSupportedError.
Proof. reflexivity. Qed.

(** ** The pre-put hook *)

Section PreparePut.

Variable json : json_module.
Variable utcnow : nat → datetime.

Arguments getattr : simpl never.
Arguments setattr : simpl never.

Lemma getattr_declared (p : property) (n : string) (entity : Model) :
  attributes (model_class_of entity) !! n = Some p →
  getattr json entity (Some n) = __get__ json p (model_fields entity).
Proof. intros H. unfold getattr. rewrite H. reflexivity. Qed.

(** A date-time or date property that is not required and has neither
    choice set nor validator accepts every stamp as given. *)
Lemma plain_datetime_accepts (p : property) :
  class_of p = DateTimeProperty ∨ class_of p = DateProperty →
  _required p = false → _choices p = None → _validator p = None →
  ∀ t, validate p (reading utcnow p t) = Ok (reading utcnow p t).
Proof.
  intros Hc Hreq Hch Hval t.
  apply validate_plain with (reading utcnow p t); try done.
  unfold _validate, reading, _now. by destruct Hc as [-> | ->].
Qed.





End PreparePut.

(** ** Batch fetches *)

Section Fetch.

Variable get_entities : list Key → list (option Entity).
Variable from_path : string → value → Key.

(** An unresolved key stops the loop of the module's [get_multi]: after
    [None] is appended, [entity.key()] is called on [None]. *)
Lemma get_multi_loop_unresolved (_kind_map : gmap string model_class)
    (entities : list (option Entity)) :
  In None entities →
  ∀ results, ∃ e, get_multi_loop _kind_map entities results = Raise e.
Proof.
  induction entities as [|entity rest IH]; intros Hin results.
  - destruct Hin.
  - destruct entity as [ent|]; simpl.
    + destruct Hin as [Hin|Hin]; [discriminate |].
      destruct (_lookup_model _ _) as [model|e]; [| by eexists].
      simpl. destruct (from_entity model ent) as [obj|e]; [| by eexists].
      simpl. by apply IH.
    + by eexists.
Qed.

Lemma get_multi_loop_first_unresolved
    (_kind_map : gmap string model_class) (rest : list (option Entity))
    (results : list (option Model)) :
  get_multi_loop _kind_map (None :: rest) results = Raise AttributeError.
Proof. reflexivity. Qed.

(** C2, as the code has it: whenever the fetch leaves a key unresolved, the
    module's [get_multi] raises instead of returning a list with [None] at
    that position. *)
Theorem get_multi_unresolved_raises (_kind_map : gmap string model_class)
    (keys : list Key) :
  In None (get_entities keys) →
  ∃ e, get_multi get_entities _kind_map keys = Raise e.
Proof. intros H. by apply get_multi_loop_unresolved. Qed.

(** The loop of [Model.get_multi] keeps [None] and goes on. *)
Lemma Model_get_multi_loop_unresolved (cls : model_class)
    (rest : list (option Entity)) (results : list (option Model)) :
  Model_get_multi_loop cls (None :: rest) results
  = Model_get_multi_loop cls rest (results ++ [None]).
Proof. reflexivity. Qed.

(** Both loops return one result per fetched entity, in order, after the
    results gathered so far. *)
Lemma Model_get_multi_loop_length (cls : model_class)
    (entities : list (option Entity)) :
  ∀ results out,
    Model_get_multi_loop cls entities results = Ok out →
    length out = (length results + length entities)%nat.
Proof.
  induction entities as [|entity rest IH]; intros results out H; simpl in *.
  - inversion H. lia.
  - destruct entity as [ent|].
    + destruct (from_entity cls ent) as [obj|e]; [| discriminate].
      simpl in H. apply IH in H. rewrite length_app in H. simpl in H. lia.
    + apply IH in H. rewrite length_app in H. simpl in H. lia.
Qed.

Lemma get_multi_loop_resolved (_kind_map : gmap string model_class)
    (entities : list (option Entity)) :
  ∀ results out,
    get_multi_loop _kind_map entities results = Ok out →
    Forall (fun entity => entity ≠ None) entities
    ∧ length out = (length results + length entities)%nat.
Proof.
  induction entities as [|entity rest IH]; intros results out H; simpl in *.
  - inversion H. split; [constructor | lia].
  - destruct entity as [ent|]; [| discriminate]. simpl in H.
    destruct (_lookup_model _ _) as [model|e]; [| discriminate].
    simpl in H. destruct (from_entity model ent) as [obj|e];
      [| discriminate].
    simpl in H. apply IH in H as [HF Hlen]. split.
    + by constructor.
    + rewrite length_app in Hlen. simpl in Hlen. lia.
Qed.

End Fetch.

(** ** Worked instances *)

Example required_property_constructed :
  construct Property None
    (Kwargs None None (Some true) None None None None None None None)
  = Ok required_property.
Proof. reflexivity. Qed.

(** [validate_required_inverted] at [Property(required=True)]: [5] is
    rejected, [None] is accepted. *)
Lemma validate_required_inverted_witness :
  validate required_property (VInt 5) = Raise ValidationError
  ∧ validate required_property VNone = Ok VNone.
Proof.
  split.
  - apply (proj1 (validate_required_inverted required_property eq_refl)).
    discriminate.
  - apply (proj2 (validate_required_inverted required_property eq_refl)).
    reflexivity.
Defined.

(** [choices_reject_None] at [IntegerProperty(choices=[1, 2])], which is
    not required. *)
Lemma choices_reject_None_witness :
  _required choice_property = false
  ∧ validate choice_property VNone = Raise ValidationError
  ∧ __set__ no_json choice_property ∅ VNone = Raise ValidationError.
Proof.
  assert (H : ¬ In VNone [VInt 1; VInt 2]).
  { intros [H|[H|[]]]; discriminate. }
  split; [reflexivity |]. split.
  - exact (proj1 (choices_reject_None no_json choice_property _ eq_refl H)).
  - exact (proj2 (choices_reject_None no_json choice_property _ eq_refl H)
             ∅).
Defined.

(** [default_never_consulted] at a default of ['anonymous'] and an instance
    with no field set. *)
Lemma default_never_consulted_witness :
  __get__ no_json (set_default (VStr "anonymous") defaulted_property) ∅
  = Ok VNone.
Proof.
  apply (proj1 (default_never_consulted no_json defaulted_property
                  (VStr "anonymous"))).
  reflexivity.
Defined.

Example text_property_constructed :
  construct TextProperty None no_kwargs = Ok text_property.
Proof. reflexivity. Qed.

Example compressed_property_constructed :
  construct BlobProperty None
    (Kwargs (Some false) None None None None None (Some true) None None None)
  = Ok compressed_property.
Proof. reflexivity. Qed.

(** [roundtrip_returns_value] at a text property: the text U+00E9 comes
    back itself, the ASCII bytes of [hi] come back as the text [hi]. *)
Lemma roundtrip_returns_value_witness :
  roundtrip no_json text_property (VUnicode [233%N]) = Ok (VUnicode [233%N])
  ∧ ∃ u, roundtrip no_json text_property (VStr "hi") = Ok (VUnicode u)
         ∧ py_eq (VUnicode u) (VStr "hi") = true.
Proof.
  split.
  - exact (proj1 (roundtrip_returns_value no_json text_property
                    (VUnicode [233%N])) eq_refl).
  - exact (proj2 (roundtrip_returns_value no_json text_property (VStr "hi"))
             eq_refl).
Defined.

(** C3 as stated fails.  The two bytes of U+00E9 are valid for a text
    property, and come back as the text U+00E9, which the byte string does
    not equal; a date-time is a date, so it is valid for a date property,
    and comes back as its date alone, which it does not equal; and three
    bytes are valid for a compressed blob, whose [to_base_type] raises
    [NameError]. *)
Lemma roundtrip_counterexample :
  (validate text_property (VStr e_acute) = Ok (VStr e_acute)
   ∧ roundtrip no_json text_property (VStr e_acute) = Ok (VUnicode [233%N])
   ∧ py_eq (VUnicode [233%N]) (VStr e_acute) = false)
  ∧ (validate birthday_property (VDateTime new_year) = Ok (VDateTime new_year)
     ∧ roundtrip no_json birthday_property (VDateTime new_year)
       = Ok (VDate (Date 2014 1 1))
     ∧ py_eq (VDate (Date 2014 1 1)) (VDateTime new_year) = false)
  ∧ (validate compressed_property (VStr "abc") = Ok (VStr "abc")
     ∧ roundtrip no_json compressed_property (VStr "abc")
       = Raise (NameError "zlib")).
Proof. repeat split; reflexivity. Qed.

(** A date-time is a date, so it is valid for a date property, and comes
    back as its date alone. *)
Example roundtrip_date_of_datetime :
  let dp := mkProperty DateProperty None true false false VNone None None
              false VNone false false in
  let v := VDateTime (DateTime (Date 2014 6 1) (Time 12 30 0 0)) in
  validate dp v = Ok v
  ∧ roundtrip no_json dp v = Ok (VDate (Date 2014 6 1))
  ∧ py_eq (VDate (Date 2014 6 1)) v = false.
Proof. repeat split; reflexivity. Qed.

(** [contradictory_config_fails] at [BlobProperty(compressed=True,
    indexed=True)] and at [DateTimeProperty(auto_now=True,
    repeated=True)]. *)
Lemma contradictory_config_fails_witness :
  construct BlobProperty None
    (Kwargs (Some true) None None None None None (Some true) None None None)
  = Raise ConfigError
  ∧ construct DateTimeProperty None
      (Kwargs None (Some true) None None None None None None None
         (Some true))
    = Raise ConfigError.
Proof.
  split.
  - apply (proj1 (contradictory_config_fails BlobProperty None _));
      try reflexivity.
    right. reflexivity.
  - apply (proj2 (contradictory_config_fails DateTimeProperty None _));
      try reflexivity.
    right. reflexivity.
Defined.

(** [odd_flat_is_malformed] at [Key("Person", 1, "Address")]. *)
Lemma odd_flat_is_malformed_witness :
  Key___init__ [VStr "Person"; VInt 1; VStr "Address"] no_key_kwargs
  = Raise MalformedKeyError.
Proof.
  apply (odd_flat_is_malformed [VStr "Person"; VInt 1; VStr "Address"]
           no_key_kwargs); reflexivity.
Defined.

(** [flat_key_is_pairs_key] at [("Person", 1, "Address", "home")]. *)
Lemma flat_key_is_pairs_key_witness :
  Key___init__ [VStr "Person"; VInt 1; VStr "Address"; VStr "home"]
    no_key_kwargs
  = Key___init__ []
      (KeyKwargs VNone VNone
         (Some [(VStr "Person", VInt 1); (VStr "Address", VStr "home")])
         None VNone None).
Proof.
  exact (proj2 (flat_key_is_pairs_key
                  [VStr "Person"; VInt 1; VStr "Address"; VStr "home"]
                  eq_refl) VNone VNone).
Defined.

(** *** A model with time stamps *)

Example Event_attributes :
  attributes Event !! "created" = Some created
  ∧ attributes Event !! "updated" = Some updated
  ∧ attributes Event !! "touched" = Some touched
  ∧ attributes Event !! "opened" = Some opened
  ∧ _properties Event !! Some "created" = Some created.
Proof. repeat split; vm_compute; reflexivity. Qed.



(** A required property with [auto_now_add] cannot be stamped: the inverted
    assertion of [validate] rejects the clock's reading. *)
Example prepare_for_put_required :
  let p := mkProperty DateTimeProperty (Some "created") true false true
             VNone None None false VNone true false in
  let cls := ModelClass "Event" {[ "created" := p ]}
               {[ Some "created" := p ]} in
  _prepare_for_put no_json daily_clock p (mkModel cls event_key ∅) 0
  = Raise AssertionError.
Proof. vm_compute. reflexivity. Qed.

(** A time property with [auto_now] cannot be stamped either: [_now] is the
    one of [DateTimeProperty] and reads a date-time, which is not a time. *)
Example prepare_for_put_time :
  let p := mkProperty TimeProperty (Some "at") true false false VNone None
             None false VNone false true in
  let cls := ModelClass "Event" {[ "at" := p ]} {[ Some "at" := p ]} in
  _prepare_for_put no_json daily_clock p (mkModel cls event_key ∅) 0
  = Raise AssertionError.
Proof. vm_compute. reflexivity. Qed.

(** A property stored under another name than the attribute that declares
    it is not found by [getattr(entity, self._name)]. *)
Example prepare_for_put_renamed :
  let p := mkProperty DateTimeProperty (Some "created_at") true false false
             VNone None None false VNone true false in
  let cls := fst (_fix_up_properties "Event" {[ "created" := Obj 1 p ]} ∅) in
  _prepare_for_put no_json daily_clock p (mkModel cls event_key ∅) 0
  = Raise AttributeError.
Proof. vm_compute. reflexivity. Qed.

(** *** A fetch that resolves nothing *)

(** [get_multi_unresolved_raises] at one key the fetch does not resolve. *)
Lemma get_multi_unresolved_raises_witness :
  ∃ e, get_multi (fun _ => [None]) ∅ [event_key] = Raise e.
Proof.
  apply (get_multi_unresolved_raises (fun _ => [None]) ∅ [event_key]).
  left. reflexivity.
Defined.

(** The two fetches on one unresolved key: the module's raises, the
    class's returns [[None]]. *)
Example get_multi_one_unresolved :
  get_multi (fun _ => [None]) ∅ [event_key] = Raise AttributeError
  ∧ Model_get_multi (fun _ => [None])
      (fun kind id => mkKey [SegId (VStr kind) id] VNone VNone)
      Event [VInt 1]
    = Ok [None].
Proof. split; reflexivity. Qed.

(** A resolved key of a registered kind gives the typed instance, every
    schema field decoded and the absent ones [None]; of a kind that is not
    registered, [UnknownKindError]. *)
Example get_multi_one_resolved :
  let raw := mkEntity event_key {[ Some "created" := VDateTime new_year ]} in
  get_multi (fun _ => [Some raw]) {[ "Event" := Event ]} [event_key]
  = Ok [Some (mkModel Event event_key
                {[ Some "created" := VDateTime new_year;
                   Some "updated" := VNone;
                   Some "touched" := VNone;
                   Some "opened" := VNone ]})]
  ∧ get_multi (fun _ => [Some raw]) ∅ [event_key] = Raise UnknownKindError.
Proof. split; vm_compute; reflexivity. Qed.

(** ** Keys: which argument is read, and what a path is made of *)

Lemma path_of_pairs_segments (ps : list (value * value)) :
  path_of_pairs ps
  = if forallb valid_pair ps then Ok (map segment_of ps)
    else Raise SyntaxError.
Proof.
  induction ps as [|[k i] ps IH]; [reflexivity |].
  cbn [path_of_pairs forallb map]. rewrite IH.
  change (valid_pair (k, i))
    with (isinstance_int i || isinstance_basestring i).
  change (segment_of (k, i))
    with (if isinstance_int i then SegId k i else SegName k i).
  destruct (isinstance_int i), (isinstance_basestring i),
    (forallb valid_pair ps); reflexivity.
Qed.

(** [Key(pairs=ps)] with a non-empty [ps], no [urlsafe] and no [path]: the
    key has one segment per pair, in order, an id segment for an [int],
    [long] or [bool] identifier and a name segment for a [str] or [unicode]
    one; any other identifier is a [SyntaxError].  The positional arguments
    and [flat] are not looked at. *)
Theorem key_from_pairs (args : list value) (kw : key_kwargs)
    (p0 : value * value) (ps : list (value * value)) :
  py_truth (urlsafe kw) = false → seq_truth (path kw) = false →
  pairs kw = Some (p0 :: ps) →
  Key___init__ args kw
  = if forallb valid_pair (p0 :: ps)
    then Ok (mkKey (map segment_of (p0 :: ps)) (namespace kw) (app kw))
    else Raise InvalidIdentifierError.
Proof.
  intros Hu Hp Hps. unfold Key___init__. rewrite Hu, Hp, Hps.
  cbn [seq_truth negb default]. unfold mbind, result_bind.
  cbn [bind]. rewrite path_of_pairs_segments. unfold id.
  destruct (forallb valid_pair (p0 :: ps)); reflexivity.
Qed.

Lemma key_from_pairs_witness :
  Key___init__ [VStr "ignored"]
    (KeyKwargs (VStr "app") VNone
       (Some [(VStr "Person", VInt 7); (VStr "Address", VUnicode [104%N])])
       (Some [VInt 1]) VNone None)
  = Ok (mkKey [SegId (VStr "Person") (VInt 7);
               SegName (VStr "Address") (VUnicode [104%N])]
          VNone (VStr "app")).
Proof.
  exact (key_from_pairs [VStr "ignored"]
           (KeyKwargs (VStr "app") VNone
              (Some [(VStr "Person", VInt 7);
                     (VStr "Address", VUnicode [104%N])])
              (Some [VInt 1]) VNone None)
           (VStr "Person", VInt 7) [(VStr "Address", VUnicode [104%N])]
           eq_refl eq_refl eq_refl).
Defined.

(** [Key] called with positional arguments and no keyword form in their
    place: an odd number of
    arguments is an [AssertionError] whatever the arguments are; an even
    number gives one segment per consecutive pair, or [SyntaxError] when an
    identifier is neither an integer nor a string.  The length is checked
    before any identifier, and no arguments at all give the empty path. *)
Theorem key_from_positional (args : list value) (kw : key_kwargs) :
  py_truth (urlsafe kw) = false → seq_truth (path kw) = false →
  seq_truth (pairs kw) = false → seq_truth (flat kw) = false →
  Key___init__ args kw
  = if Nat.even (length args) then
      if forallb valid_pair (pairs_of_flat args)
      then Ok (mkKey (map segment_of (pairs_of_flat args))
                 (namespace kw) (app kw))
      else Raise InvalidIdentifierError
    else Raise MalformedKeyError.
Proof.
  intros Hu Hp Hps Hf. unfold Key___init__. rewrite Hu, Hp, Hps, Hf.
  cbn [negb]. destruct (Nat.even (length args)); [| reflexivity].
  cbn [py_assert]. unfold mbind, result_bind. cbn [bind].
  rewrite path_of_pairs_segments.
  destruct (forallb valid_pair (pairs_of_flat args)); reflexivity.
Qed.

Lemma key_from_positional_witness :
  Key___init__ [] no_key_kwargs = Ok (mkKey [] VNone VNone)
  ∧ Key___init__ [VStr "Person"; VFloat (S754_zero false); VStr "Address"]
      no_key_kwargs = Raise MalformedKeyError
  ∧ Key___init__ [VStr "Person"; VFloat (S754_zero false)] no_key_kwargs
    = Raise InvalidIdentifierError.
Proof.
  split; [| split].
  - exact (key_from_positional [] no_key_kwargs
             eq_refl eq_refl eq_refl eq_refl).
  - exact (key_from_positional
             [VStr "Person"; VFloat (S754_zero false); VStr "Address"]
             no_key_kwargs eq_refl eq_refl eq_refl eq_refl).
  - exact (key_from_positional [VStr "Person"; VFloat (S754_zero false)]
             no_key_kwargs eq_refl eq_refl eq_refl eq_refl).
Defined.

(** The order in which [Key.__init__] reads its arguments: a true [urlsafe]
    is [NotImplementedError] whatever else is passed; otherwise a non-empty
    [path] becomes the key's path as it is, with no check of its segments;
    and whenever [urlsafe], [path], [pairs] or [flat] is given (true), the
    positional arguments have no effect on the result. *)
Theorem key_keyword_precedence (args : list value) (kw : key_kwargs) :
  (py_truth (urlsafe kw) = true →
     Key___init__ args kw = Raise NotSupportedError)
  ∧ (py_truth (urlsafe kw) = false → seq_truth (path kw) = true →
     Key___init__ args kw
     = Ok (mkKey (default [] (path kw)) (namespace kw) (app kw)))
  ∧ (py_truth (urlsafe kw) || seq_truth (path kw) || seq_truth (pairs kw)
     || seq_truth (flat kw) = true →
     ∀ args', Key___init__ args' kw = Key___init__ args kw).
Proof.
  unfold Key___init__. split; [| split].
  - intros ->. reflexivity.
  - intros -> ->. reflexivity.
  - intros H args'.
    destruct (py_truth (urlsafe kw)); [reflexivity |].
    destruct (seq_truth (path kw)); [reflexivity |].
    destruct (seq_truth (pairs kw)); [reflexivity |].
    destruct (seq_truth (flat kw)); [reflexivity | discriminate].
Qed.

(** ** Construction: what every constructed property satisfies *)

(** A property that its constructor returned has the class and the name it
    was constructed with; its [indexed] flag is the keyword, or the default
    of its class (false for [TextProperty], true for every other class);
    it is never both compressed and indexed, and never both stamped
    ([auto_now_add] or [auto_now]) and repeated; only a blob-family property
    is compressed and only a date-time-family property is stamped. *)
Theorem constructed_invariant (c : prop_class) (name : option string)
    (kw : kwargs) (p : property) :
  construct c name kw = Ok p →
  class_of p = c ∧ _name p = name
  ∧ _indexed p = default (indexed_by_default c) (kw_indexed kw)
  ∧ _compressed p && _indexed p = false
  ∧ (_auto_now_add p || _auto_now p) && _repeated p = false
  ∧ (_compressed p = true → is_blob_class c = true)
  ∧ (_auto_now_add p || _auto_now p = true → is_datetime_class c = true).
Proof.
  destruct kw as [i r rq d ch va z sc a n].
  destruct c; intros H;
    destruct z as [[]|], sc as [sc|], a as [[]|], n as [[]|];
    try discriminate H;
    destruct i as [[]|]; try discriminate H;
    destruct r as [[]|]; try discriminate H;
    injection H as <-; repeat split; try reflexivity; discriminate.
Qed.

Lemma constructed_invariant_witness :
  class_of compressed_property = BlobProperty
  ∧ _name compressed_property = None
  ∧ _indexed compressed_property = false
  ∧ _compressed compressed_property && _indexed compressed_property = false
  ∧ (_auto_now_add compressed_property || _auto_now compressed_property)
    && _repeated compressed_property = false
  ∧ (_compressed compressed_property = true →
     is_blob_class BlobProperty = true)
  ∧ (_auto_now_add compressed_property || _auto_now compressed_property
     = true → is_datetime_class BlobProperty = true).
Proof.
  exact (constructed_invariant BlobProperty None
           (Kwargs (Some false) None None None None None (Some true) None
              None None)
           compressed_property eq_refl).
Defined.

(** The outcome of every constructor call.  A stamped and repeated
    date-time property is an [AssertionError], raised before anything else;
    then a keyword the class does not take is a [TypeError]; then a blob
    that is compressed and indexed, the index flag being the keyword or the
    default of the class, is an [AssertionError]; every other call returns
    the property that holds the keywords, and the defaults for those not
    passed. *)
Theorem construct_decision (c : prop_class) (name : option string)
    (kw : kwargs) :
  construct c name kw
  = if is_datetime_class c
       && (default false (kw_auto_now_add kw)
           || default false (kw_auto_now kw))
       && default false (kw_repeated kw)
    then Raise ConfigError
    else if foreign_keyword c kw then Raise TypeError
    else if is_blob_class c && default false (kw_compressed kw)
            && default (indexed_by_default c) (kw_indexed kw)
    then Raise ConfigError
    else Ok (mkProperty c name
               (default (indexed_by_default c) (kw_indexed kw))
               (default false (kw_repeated kw))
               (default false (kw_required kw))
               (default VNone (kw_default kw))
               (kw_choices kw) (kw_validator kw)
               (default false (kw_compressed kw))
               (default VNone (kw_schema kw))
               (default false (kw_auto_now_add kw))
               (default false (kw_auto_now kw))).
Proof.
  destruct kw as [i r rq d ch va z sc a n].
  destruct c;
    destruct z as [[]|], sc as [sc|], a as [[]|], n as [[]|];
    try reflexivity;
    destruct i as [[]|]; try reflexivity;
    destruct r as [[]|]; reflexivity.
Qed.

(** ** Validation and attribute access: what is checked, stored and read *)

Section Access.

Variable json : json_module.

Lemma validate_inv (p : property) (v w : value) :
  validate p v = Ok w →
  match _choices p with None => true | Some cs => py_in v cs end = true
  ∧ (v = VNone ∧ w = VNone
     ∨ v ≠ VNone ∧ _required p = false
       ∧ ∃ u, _validate p v = Ok u
              ∧ match _validator p with
                | Some f => f v = Ok w
                | None => w = v
                end).
Proof.
  intros H. unfold validate in H.
  destruct (match _choices p with None => _ | Some _ => _ end);
    [| discriminate H].
  split; [reflexivity |].
  destruct v;
    try (left; destruct (_required p); simpl in H;
         split; congruence);
    right; (split; [discriminate |]);
    (destruct (_required p); [discriminate H |]);
    (split; [reflexivity |]); simpl in H;
    match type of H with
    | context [_validate p ?x] =>
        let r := fresh "r" in
        destruct (_validate p x) as [r|]; [| discriminate H];
        exists r; split; [reflexivity |]
    end; simpl in H; destruct (_validator p); congruence.
Qed.

Lemma _validate_class_checked (p : property) (v u : value) :
  _validate p v = Ok u → class_accepts (class_of p) v = true.
Proof.
  unfold _validate, class_accepts.
  destruct (class_of p); try reflexivity;
    destruct v; try reflexivity; discriminate.
Qed.

(** With no custom validator, [validate] returns the very value it was
    given: the conversions of [_validate] ([int(value)], [float(value)], the
    decoding of a byte string) are computed and dropped. *)
Theorem validate_returns_argument (p : property) (v w : value) :
  _validator p = None → validate p v = Ok w → w = v.
Proof.
  intros Hval H. unfold validate in H. rewrite Hval in H.
  destruct (match _choices p with None => _ | Some _ => _ end);
    [| discriminate H].
  destruct (negb (_required p && negb (is_none v))); [| discriminate H].
  simpl in H. destruct (is_none v) eqn:E.
  - destruct v; try discriminate E. congruence.
  - destruct (_validate p v); simpl in H; congruence.
Qed.

Lemma validate_returns_argument_witness :
  _validator count_property = None
  ∧ validate count_property (VBool true) = Ok (VBool true)
  ∧ VBool true = VBool true.
Proof.
  split; [reflexivity | split; [reflexivity |]].
  exact (validate_returns_argument count_property (VBool true) (VBool true)
           eq_refl eq_refl).
Defined.

(** Whatever [validate] accepts that is not [None] passed the [isinstance]
    test of the property's class and the choice set, if there is one, and
    the property is not required. *)
Theorem validate_accepts (p : property) (v w : value) :
  validate p v = Ok w → v ≠ VNone →
  _required p = false
  ∧ class_accepts (class_of p) v = true
  ∧ match _choices p with None => true | Some cs => py_in v cs end = true.
Proof.
  intros H Hv. unfold validate in H.
  destruct (match _choices p with None => _ | Some _ => _ end);
    [| discriminate H].
  destruct (_required p); [destruct v; try contradiction; discriminate H |].
  split; [reflexivity | split; [| reflexivity]].
  simpl in H. destruct (is_none v) eqn:E; [by destruct v |].
  unfold _validate in H. unfold class_accepts.
  destruct (class_of p); try reflexivity;
    destruct v; try reflexivity; discriminate H.
Qed.

Lemma validate_accepts_witness :
  validate count_property (VInt 3) = Ok (VInt 3)
  ∧ _required count_property = false
  ∧ class_accepts (class_of count_property) (VInt 3) = true
  ∧ match _choices count_property with
    | None => true
    | Some cs => py_in (VInt 3) cs
    end = true.
Proof.
  split; [reflexivity |].
  apply (validate_accepts count_property (VInt 3) (VInt 3) eq_refl).
  discriminate.
Defined.

(** A custom validator runs last and has the last word: it is called on
    the value as given exactly when the property without it accepts a value
    that is not [None], and then its result, or its exception, is the
    outcome of [validate]; [None] never reaches it. *)
Theorem validator_runs_last (p : property) (f : validator) (v : value) :
  _validator p = Some f →
  validate p v
  = match validate (without_validator p) v with
    | Raise e => Raise e
    | Ok _ => if is_none v then Ok VNone else f v
    end.
Proof.
  intros Hf. unfold validate. rewrite Hf.
  change (_choices (without_validator p)) with (_choices p).
  change (_required (without_validator p)) with (_required p).
  change (_validator (without_validator p)) with (@None validator).
  change (_validate (without_validator p) v) with (_validate p v).
  destruct (match _choices p with None => _ | Some _ => _ end);
    [| reflexivity].
  destruct (negb (_required p && negb (is_none v))); [| reflexivity].
  simpl. destruct (is_none v); [reflexivity |].
  destruct (_validate p v); reflexivity.
Qed.

Lemma validator_runs_last_witness :
  validate doubled_property (VInt 4) = Ok (VInt 8)
  ∧ validate doubled_property (VInt 3) = Raise AssertionError
  ∧ validate doubled_property VNone = Ok VNone
  ∧ validate doubled_property (VStr "4") = Raise AssertionError.
Proof.
  split; [| split; [| split]].
  - exact (validator_runs_last doubled_property doubling (VInt 4) eq_refl).
  - exact (validator_runs_last doubled_property doubling (VInt 3) eq_refl).
  - exact (validator_runs_last doubled_property doubling VNone eq_refl).
  - exact (validator_runs_last doubled_property doubling (VStr "4") eq_refl).
Defined.

End Access.

(** ** Fields: writing, reading back, deleting *)

Section Storage.

Variable json : json_module.

Lemma from_to_base_type (p : property) (v b : value) :
  returns_as_given p v = true → to_base_type json p v = Ok b →
  from_base_type json p b = Ok v.
Proof.
  unfold returns_as_given, to_base_type, from_base_type, _to_base_type,
    _from_base_type, BlobProperty__to_base_type,
    BlobProperty__from_base_type.
  destruct v; simpl; intros Hr Hb;
    try (injection Hb as <-; reflexivity);
    destruct (class_of p); simpl in *; try discriminate;
    try (injection Hb as <-; reflexivity);
    destruct (_compressed p); simpl in *; try discriminate;
    injection Hb as <-; reflexivity.
Qed.

Lemma set_stores (p : property) (instance instance' : fields) (v : value) :
  _validator p = None → __set__ json p instance v = Ok instance' →
  validate p v = Ok v
  ∧ ∃ b, to_base_type json p v = Ok b ∧ instance' = <[_name p := b]> instance.
Proof.
  intros Hval H. unfold __set__ in H.
  destruct (validate p v) as [w|] eqn:Ev; [| discriminate H].
  assert (w = v) as ->.
  { destruct (validate_inv p v w Ev) as (_ & [[-> ->] | (_ & _ & u & _ & Hw)]);
      [reflexivity |]. by rewrite Hval in Hw. }
  split; [reflexivity |]. simpl in H.
  destruct (to_base_type json p v) as [b|]; [| discriminate H].
  exists b. simpl in H. by injection H as <-.
Qed.

(** Reading a field back after a successful write through a property with
    no custom validator gives the round trip of the written value through
    the base type, which is the written value itself wherever the round
    trip returns its argument; and the write changes what no property with
    another storage name reads. *)
Theorem get_after_set (p : property) (instance instance' : fields)
    (v : value) :
  _validator p = None → __set__ json p instance v = Ok instance' →
  __get__ json p instance' = roundtrip json p v
  ∧ (returns_as_given p v = true → __get__ json p instance' = Ok v)
  ∧ (∀ q, _name q ≠ _name p →
       __get__ json q instance' = __get__ json q instance).
Proof.
  intros Hval H.
  destruct (set_stores p instance instance' v Hval H) as (_ & b & Hb & ->).
  unfold __get__, roundtrip. rewrite lookup_insert_eq, Hb. simpl.
  split; [reflexivity | split].
  - intros Hr. by apply from_to_base_type.
  - intros q Hq. by rewrite lookup_insert_ne.
Qed.

(** What a successful write through a property with no custom validator
    leaves in the field is [None] or a value of the base type of the class:
    text for the text properties, never a byte string; a date-time for the
    three date and time properties, at midnight for a [DateProperty] and on
    1970-01-01 for a [TimeProperty]. *)
Theorem set_stores_base_type (p : property) (instance instance' : fields)
    (v : value) :
  _validator p = None → __set__ json p instance v = Ok instance' →
  ∃ b, instance' !! _name p = Some b
       ∧ is_none b || base_type_of (class_of p) b = true.
Proof.
  intros Hval H.
  destruct (set_stores p instance instance' v Hval H) as (Hv & b & Hb & ->).
  exists b. rewrite lookup_insert_eq. split; [reflexivity |].
  destruct (is_none v) eqn:E.
  { destruct v; try discriminate E. by injection Hb as <-. }
  assert (Hne : v ≠ VNone) by (intros ->; discriminate E).
  assert (Hc : class_accepts (class_of p) v = true).
  { destruct (validate_inv p v v Hv) as (_ & [[-> _] | (_ & _ & u & Hu & _)]);
      [done |]. by apply _validate_class_checked with u. }
  unfold to_base_type in Hb. rewrite E in Hb.
  unfold _to_base_type, BlobProperty__to_base_type in Hb.
  unfold class_accepts in Hc. unfold base_type_of.
  destruct (class_of p); try apply orb_true_r;
    destruct v; try discriminate Hc; simpl in Hb;
    try (injection Hb as <-; reflexivity).
  - destruct (_compressed p); [discriminate Hb |].
    by injection Hb as <-.
  - unfold decode_utf8 in Hb.
    destruct (utf8_decode (bytes_of s)); [| discriminate Hb].
    by injection Hb as <-.
  - unfold decode_utf8 in Hb.
    destruct (utf8_decode (bytes_of s)); [| discriminate Hb].
    by injection Hb as <-.
Qed.

(** [__del__] removes the property's field and nothing else: reading the
    property afterwards gives [None], what the other properties read is
    unchanged, deleting an absent field is no error and changes nothing,
    and deleting after a write to an absent field restores the instance. *)
Theorem del_then_get (p : property) (instance : fields) :
  __get__ json p (__del__ p instance) = Ok VNone
  ∧ (∀ q, _name q ≠ _name p →
       __get__ json q (__del__ p instance) = __get__ json q instance)
  ∧ (instance !! _name p = None → __del__ p instance = instance)
  ∧ (∀ v instance', instance !! _name p = None →
       __set__ json p instance v = Ok instance' →
       __del__ p instance' = instance).
Proof.
  unfold __del__. split; [| split; [| split]].
  - unfold __get__. rewrite lookup_delete_eq. reflexivity.
  - intros q Hq. unfold __get__. by rewrite lookup_delete_ne.
  - apply delete_id.
  - intros v instance' Habs H. unfold __set__ in H.
    destruct (validate p v) as [w|]; [| discriminate H]. simpl in H.
    destruct (to_base_type json p w) as [b|]; [| discriminate H].
    simpl in H. injection H as <-. by apply delete_insert_id.
Qed.

(** The round trip through the base type is idempotent for every class
    whose conversions the module defines itself (all but [JsonProperty]):
    what comes back once comes back unchanged from then on. *)
Theorem roundtrip_idempotent (p : property) (v w : value) :
  class_of p ≠ JsonProperty →
  roundtrip json p v = Ok w → roundtrip json p w = Ok w.
Proof.
  unfold roundtrip, to_base_type, from_base_type, _to_base_type,
    _from_base_type, BlobProperty__to_base_type,
    BlobProperty__from_base_type, decode_utf8.
  intros Hj H.
  destruct (class_of p); try contradiction;
    destruct v; simpl in H; try discriminate H;
    try (injection H as <-; reflexivity);
    try (destruct (_compressed p); simpl in H; try discriminate H;
         injection H as <-; simpl; reflexivity);
    try (destruct (utf8_decode (bytes_of s)); simpl in H;
         try discriminate H; injection H as <-; reflexivity).
Qed.

End Storage.

Lemma get_after_set_witness :
  __set__ no_json birthday_property ∅ (VDate (Date 2014 6 1))
  = Ok {[ Some "birthday" := VDateTime (DateTime (Date 2014 6 1) midnight) ]}
  ∧ __get__ no_json birthday_property
      {[ Some "birthday" := VDateTime (DateTime (Date 2014 6 1) midnight) ]}
    = Ok (VDate (Date 2014 6 1)).
Proof.
  split; [reflexivity |].
  exact (proj1 (proj2 (get_after_set no_json birthday_property ∅
                         {[ Some "birthday" :=
                              VDateTime (DateTime (Date 2014 6 1) midnight) ]}
                         (VDate (Date 2014 6 1)) eq_refl eq_refl))
           eq_refl).
Defined.

Lemma set_stores_base_type_witness :
  __set__ no_json defaulted_property ∅ (VStr e_acute)
  = Ok {[ Some "name" := VUnicode [233%N] ]}
  ∧ ∃ b, ({[ Some "name" := VUnicode [233%N] ]} : fields)
         !! _name defaulted_property = Some b
         ∧ is_none b || base_type_of (class_of defaulted_property) b = true.
Proof.
  split; [reflexivity |].
  exact (set_stores_base_type no_json defaulted_property ∅
           {[ Some "name" := VUnicode [233%N] ]} (VStr e_acute)
           eq_refl eq_refl).
Defined.

Lemma roundtrip_idempotent_witness :
  roundtrip no_json birthday_property (VDateTime new_year)
  = Ok (VDate (Date 2014 1 1))
  ∧ roundtrip no_json birthday_property (VDate (Date 2014 1 1))
    = Ok (VDate (Date 2014 1 1)).
Proof.
  split; [reflexivity |].
  apply (roundtrip_idempotent no_json birthday_property (VDateTime new_year)
           (VDate (Date 2014 1 1))); [discriminate | reflexivity].
Defined.

(** ** Text: byte strings that are plain ASCII *)

(** An ASCII byte string given to a text property comes back from the round
    trip as the text of the same characters, which Python 2 compares equal
    to the byte string. *)
Theorem text_ascii_roundtrip (json : json_module) (p : property)
    (s : string) (u : list N) :
  class_of p = TextProperty ∨ class_of p = StringProperty →
  ascii_decode s = Some u →
  roundtrip json p (VStr s) = Ok (VUnicode u)
  ∧ py_eq (VUnicode u) (VStr s) = true.
Proof.
  intros Hc Hs. split.
  - unfold ascii_decode in Hs.
    destruct (forallb _ (bytes_of s)) eqn:E; [| discriminate Hs].
    injection Hs as <-.
    unfold roundtrip, to_base_type, from_base_type, _to_base_type,
      _from_base_type, decode_utf8.
    destruct Hc as [-> | ->]; simpl;
      rewrite (utf8_decode_ascii _ E); reflexivity.
  - simpl. rewrite Hs. unfold list_N_eqb. by apply bool_decide_eq_true.
Qed.

Lemma text_ascii_roundtrip_witness :
  roundtrip no_json text_property (VStr "hi") = Ok (VUnicode [104%N; 105%N])
  ∧ py_eq (VUnicode [104%N; 105%N]) (VStr "hi") = true.
Proof.
  exact (text_ascii_roundtrip no_json text_property "hi" [104%N; 105%N]
           (or_introl eq_refl) eq_refl).
Defined.

(** ** The schema a class declaration builds *)

Lemma fix_up_named (n : string) (p : property) : is_Some (_name (_fix_up n p)).
Proof.
  unfold _fix_up. destruct (_name p) eqn:E; [rewrite E |]; simpl; eauto.
Qed.

Lemma fix_up_of_named (n : string) (p : property) :
  is_Some (_name p) → _fix_up n p = p.
Proof. intros [k Hk]. unfold _fix_up. by rewrite Hk. Qed.

Lemma fix_up_fold (classdict : gmap string object) :
  fold_invariant (map_fold _fix_up_properties_step (∅, ∅, ∅) classdict) classdict.
Proof.
  apply (map_fold_weak_ind fold_invariant).
  - unfold fold_invariant. repeat split; intros *;
      rewrite ?lookup_empty; try done.
  - intros i x m [[objects attrs] props] Hi
      (HA & HH & HB & HB0 & HC & HD & HG & HF).
    unfold _fix_up_properties_step, fold_invariant.
    set (prop := _fix_up i (default (object_state x) (objects !! object_id x))).
    assert (Hprop : is_Some (_name prop)) by apply fix_up_named.
    assert (Hfresh : attrs !! i = None) by by apply HB0.
    assert (Hold : ∀ p, objects !! object_id x = Some p → prop = p).
    { intros p Hp. unfold prop. rewrite Hp. simpl.
      apply fix_up_of_named. by apply HA with (object_id x). }
    split; [| split; [| split; [| split; [| split; [| split; [| split]]]]]].
    + intros a q. destruct (decide (object_id x = a)) as [<- | Hne].
      * rewrite lookup_insert_eq. by intros [= <-].
      * rewrite lookup_insert_ne by done. apply HA.
    + intros a. destruct (decide (object_id x = a)) as [<- | Hne].
      * intros _. exists i, x. by rewrite lookup_insert_eq.
      * rewrite lookup_insert_ne by done. intros Ha.
        destruct (HH a Ha) as (n & o & Hn & Ho). exists n, o.
        split; [| done]. rewrite lookup_insert_ne; [done |].
        intros <-. congruence.
    + intros n o. destruct (decide (i = n)) as [<- | Hne].
      * rewrite lookup_insert_eq. intros [= <-]. exists prop.
        by rewrite !lookup_insert_eq.
      * rewrite lookup_insert_ne by done. intros Hn.
        destruct (HB n o Hn) as (p & Hp & Hobjects). exists p.
        rewrite lookup_insert_ne by done. split; [done |].
        destruct (decide (object_id x = object_id o)) as [Heq | Hneq].
        -- rewrite Heq, lookup_insert_eq. f_equal. apply Hold.
           by rewrite Heq.
        -- by rewrite lookup_insert_ne.
    + intros n. destruct (decide (i = n)) as [<- | Hne].
      * by rewrite lookup_insert_eq.
      * rewrite !lookup_insert_ne by done. apply HB0.
    + intros k p Hk. destruct (decide (_name prop = k)) as [<- | Hne].
      * rewrite lookup_insert_eq in Hk. injection Hk as <-.
        split; [done |]. exists i. by rewrite lookup_insert_eq.
      * rewrite lookup_insert_ne in Hk by done.
        destruct (HC k p Hk) as (Hn & n & Hm). split; [done |].
        exists n. rewrite lookup_insert_ne; [done |].
        intros <-. congruence.
    + intros n p Hn. destruct (decide (_name prop = _name p)) as [-> | Hne].
      * rewrite lookup_insert_eq. eauto.
      * rewrite lookup_insert_ne by done.
        destruct (decide (i = n)) as [<- | Hin].
        -- rewrite lookup_insert_eq in Hn. congruence.
        -- rewrite lookup_insert_ne in Hn by done. by apply HD with n.
    + intros n o Hn Huniq. destruct (decide (i = n)) as [<- | Hne].
      * rewrite lookup_insert_eq in Hn. injection Hn as <-.
        rewrite lookup_insert_eq. f_equal. unfold prop.
        destruct (objects !! object_id x) as [p|] eqn:Hp; [| done].
        destruct (HH (object_id x) ltac:(by rewrite Hp))
          as (n' & o' & Hn' & Ho').
        assert (n' = i) as ->.
        { apply (Huniq n' o'); [| done].
          rewrite lookup_insert_ne; [done |]. intros <-. congruence. }
        congruence.
      * rewrite lookup_insert_ne in Hn by done.
        rewrite lookup_insert_ne by done. apply HG; [done |].
        intros n' o' Hn' Ho'. apply (Huniq n' o'); [| done].
        rewrite lookup_insert_ne; [done |]. intros <-. congruence.
    + intros Hun a p Ha.
      assert (Hunm : map_Forall (fun _ o => _name (object_state o) = None) m).
      { intros n o Hn. apply (Hun n o).
        rewrite lookup_insert_ne; [done |]. intros <-. congruence. }
      assert (Hkeep : ∀ n q, attrs !! n = Some q →
                <[i := prop]> attrs !! n = Some q).
      { intros n q Hq. rewrite lookup_insert_ne; [done |].
        intros <-. congruence. }
      destruct (decide (object_id x = a)) as [<- | Hne].
      * rewrite lookup_insert_eq in Ha. injection Ha as <-.
        destruct (objects !! object_id x) as [p|] eqn:Hp.
        -- pose proof (Hold p eq_refl) as Epp.
           destruct (HF Hunm _ _ Hp) as (n & Hn & Hq). exists n.
           split; [by rewrite Epp |].
           rewrite (Hkeep n p Hq). by rewrite Epp.
        -- exists i. rewrite lookup_insert_eq. split; [| done].
           unfold prop. simpl. unfold _fix_up.
           by rewrite (Hun i x ltac:(by rewrite lookup_insert_eq)).
      * rewrite lookup_insert_ne in Ha by done.
        destruct (HF Hunm _ _ Ha) as (n & Hn & Hq). exists n.
        split; [done |]. by apply Hkeep.
Qed.

Lemma class_built (name : string) (classdict : gmap string object)
    (_kind_map : gmap string model_class) :
  let cls := (_fix_up_properties name classdict _kind_map).1 in
  __name__ cls = name
  ∧ (_fix_up_properties name classdict _kind_map).2
    = <[name := cls]> _kind_map
  ∧ ∃ objects,
      fold_invariant (objects, attributes cls, _properties cls) classdict.
Proof.
  cbv zeta. unfold _fix_up_properties.
  pose proof (fix_up_fold classdict) as Hinv.
  destruct (map_fold _fix_up_properties_step (∅, ∅, ∅) classdict)
    as [[objects attrs] props].
  cbn [fst snd __name__ attributes _properties].
  split; [reflexivity | split; [reflexivity |]]. by exists objects.
Qed.

Lemma class_schema (name : string) (classdict : gmap string object)
    (_kind_map : gmap string model_class) :
  let cls := (_fix_up_properties name classdict _kind_map).1 in
  (∀ n, is_Some (attributes cls !! n) ↔ is_Some (classdict !! n))
  ∧ (∀ n p, attributes cls !! n = Some p →
       is_Some (_name p) ∧ is_Some (_properties cls !! _name p))
  ∧ (∀ k p, _properties cls !! k = Some p →
       _name p = k ∧ ∃ n, attributes cls !! n = Some p)
  ∧ (∀ n1 n2 o1 o2, classdict !! n1 = Some o1 → classdict !! n2 = Some o2 →
       object_id o1 = object_id o2 →
       attributes cls !! n1 = attributes cls !! n2)
  ∧ (∀ n o, classdict !! n = Some o →
       (∀ n' o', classdict !! n' = Some o' →
          object_id o' = object_id o → n' = n) →
       attributes cls !! n = Some (_fix_up n o))
  ∧ (map_Forall (fun _ o => _name (object_state o) = None) classdict →
     ∀ n p, attributes cls !! n = Some p →
            ∃ m, _name p = Some m ∧ attributes cls !! m = Some p).
Proof.
  cbv zeta.
  destruct (class_built name classdict _kind_map) as (_ & _ & objects & Hinv).
  cbv zeta in Hinv. unfold fold_invariant in Hinv.
  set (cls := (_fix_up_properties name classdict _kind_map).1) in *.
  destruct Hinv as (HA & HH & HB & HB0 & HC & HD & HG & HF).
  assert (Hbound : ∀ n p, attributes cls !! n = Some p →
            ∃ o, classdict !! n = Some o
                 ∧ objects !! object_id o = Some p).
  { intros n p Hp. destruct (classdict !! n) as [o|] eqn:Ho.
    - destruct (HB n o Ho) as (p' & Hp' & Hobj). exists o.
      split; [done |]. congruence.
    - rewrite (HB0 n Ho) in Hp. discriminate Hp. }
  split; [| split; [| split; [| split; [| split]]]].
  - intros n. split.
    + intros [p Hp]. destruct (Hbound n p Hp) as (o & Ho & _). eauto.
    + intros [o Ho]. destruct (HB n o Ho) as (p & Hp & _). eauto.
  - intros n p Hp. split; [| by apply HD with n].
    destruct (Hbound n p Hp) as (o & _ & Hobj). by apply HA with (object_id o).
  - exact HC.
  - intros n1 n2 o1 o2 H1 H2 Hid.
    destruct (HB n1 o1 H1) as (p1 & -> & Hobj1).
    destruct (HB n2 o2 H2) as (p2 & -> & Hobj2). congruence.
  - exact HG.
  - intros Hun n p Hp. destruct (Hbound n p Hp) as (o & _ & Hobj).
    by apply (HF Hun (object_id o)).
Qed.


(** One object under two names is one attribute with one storage name, the
    name of the binding the loop met first, and one entry of
    [_properties]. *)
Example shared_object_one_property :
  attributes Pair !! "a" = attributes Pair !! "b"
  ∧ size (_properties Pair) = 1%nat
  ∧ ∃ p, attributes Pair !! "b" = Some p
         ∧ (_name p = Some "a" ∨ _name p = Some "b")
         ∧ _properties Pair !! _name p = Some p.
Proof.
  split; [vm_compute; reflexivity | split; [vm_compute; reflexivity |]].
  destruct (attributes Pair !! "b") as [p|] eqn:E;
    [| vm_compute in E; discriminate E].
  exists p. split; [reflexivity |]. vm_compute in E. injection E as <-.
  split; [vm_compute; auto | vm_compute; reflexivity].
Qed.

Lemma unshared_names (classdict : gmap string object) :
  unshared classdict →
  ∀ n1 n2 o1 o2, classdict !! n1 = Some o1 → classdict !! n2 = Some o2 →
    object_id o1 = object_id o2 → n1 = n2.
Proof.
  unfold unshared. intros Hnd n1 n2 o1 o2 H1 H2 Hid.
  apply elem_of_map_to_list in H1, H2.
  assert (Hinj : ∀ l : list (string * object),
            NoDup ((fun no => object_id no.2) <$> l) →
            ∀ x y, x ∈ l → y ∈ l → object_id x.2 = object_id y.2 → x = y).
  { induction l as [|z l IH]; intros Hl x y Hx Hy Hxy.
    - by apply elem_of_nil in Hx.
    - rewrite fmap_cons in Hl. apply NoDup_cons in Hl as [Hz Hl].
      apply elem_of_cons in Hx as [-> | Hx];
        apply elem_of_cons in Hy as [-> | Hy]; [done | | | by apply IH].
      + exfalso. apply Hz. rewrite Hxy.
        by apply (list_elem_of_fmap_2 (fun no => object_id no.2)).
      + exfalso. apply Hz. rewrite <- Hxy.
        by apply (list_elem_of_fmap_2 (fun no => object_id no.2)). }
  by injection (Hinj _ Hnd (n1, o1) (n2, o2) H1 H2 Hid).
Qed.

Lemma unnamed_schema (name : string) (classdict : gmap string object)
    (_kind_map : gmap string model_class) :
  map_Forall (fun _ (o : object) => _name o = None) classdict →
  unshared classdict →
  let cls := (_fix_up_properties name classdict _kind_map).1 in
  (∀ n p, attributes cls !! n = Some p → _name p = Some n)
  ∧ (∀ n, _properties cls !! Some n = attributes cls !! n)
  ∧ _properties cls !! None = None.
Proof.
  intros Hnone Hunshared. cbv zeta.
  destruct (class_schema name classdict _kind_map)
    as (H1 & H2 & H3 & _ & H5 & _).
  cbv zeta in H1, H2, H3, H5.
  set (cls := (_fix_up_properties name classdict _kind_map).1) in *.
  assert (Hname : ∀ n p, attributes cls !! n = Some p → _name p = Some n).
  { intros n p Hp.
    destruct (proj1 (H1 n) ltac:(by rewrite Hp)) as [o Ho].
    rewrite (H5 n o Ho) in Hp.
    - injection Hp as <-. unfold _fix_up. by rewrite (Hnone n o Ho).
    - intros n' o' Hn' Hid.
      by apply (unshared_names classdict Hunshared n' n o' o). }
  split; [exact Hname | split].
  - intros n. destruct (attributes cls !! n) as [p|] eqn:Ep.
    + destruct (proj2 (H2 n p Ep)) as [q Hq].
      rewrite (Hname n p Ep) in Hq. rewrite Hq. f_equal.
      destruct (H3 _ _ Hq) as (Hqn & n' & Hn').
      pose proof (Hname _ _ Hn') as Hn''.
      assert (n' = n) as -> by congruence. congruence.
    + destruct (_properties cls !! Some n) as [q|] eqn:Eq; [| done].
      destruct (H3 _ _ Eq) as (Hqn & n' & Hn').
      pose proof (Hname _ _ Hn') as Hn''. congruence.
  - destruct (_properties cls !! None) as [q|] eqn:Eq; [| done].
    destruct (H3 _ _ Eq) as (Hqn & n' & Hn').
    pose proof (Hname _ _ Hn') as Hn''. congruence.
Qed.

(** For a class body in which no property is declared with an explicit
    name and no object is bound to two names, the storage names are the
    attribute names: [_properties] holds under each attribute name the
    property of that attribute, and nothing else. *)
Theorem unnamed_properties_schema (name : string)
    (classdict : gmap string object)
    (_kind_map : gmap string model_class) :
  map_Forall (fun _ (o : object) => _name o = None) classdict →
  unshared classdict →
  let cls := (_fix_up_properties name classdict _kind_map).1 in
  (∀ n p, attributes cls !! n = Some p → _name p = Some n)
  ∧ (∀ n, _properties cls !! Some n = attributes cls !! n)
  ∧ _properties cls !! None = None.
Proof. apply unnamed_schema. Qed.

Lemma unnamed_properties_schema_witness :
  _properties Event !! Some "created" = attributes Event !! "created"
  ∧ _properties Event !! Some "elsewhere" = None
  ∧ _properties Event !! None = None.
Proof.
  assert (H : map_Forall (fun _ (o : object) => _name o = None) Event_body).
  { unfold Event_body.
    repeat (apply map_Forall_insert_2; [reflexivity |]).
    apply map_Forall_empty. }
  assert (Hu : unshared Event_body).
  { unfold unshared. refine (bool_decide_unpack _ _). vm_compute. exact I. }
  destruct (unnamed_properties_schema "Event" Event_body ∅ H Hu)
    as (_ & H2 & H3).
  split; [exact (H2 "created") | split; [exact (H2 "elsewhere") | exact H3]].
Defined.

(** Declaring a class registers it under its name: the name then looks up
    to the class just built, every other name looks up as it did before,
    and a class declared earlier under the same name is forgotten. *)
Theorem declared_class_registered (name : string)
    (classdict : gmap string object)
    (_kind_map : gmap string model_class) :
  let cls := (_fix_up_properties name classdict _kind_map).1 in
  let registry := (_fix_up_properties name classdict _kind_map).2 in
  _lookup_model registry (VStr name) = Ok cls
  ∧ (∀ kind, kind ≠ name →
       _lookup_model registry (VStr kind)
       = _lookup_model _kind_map (VStr kind))
  ∧ (∀ earlier,
       (_fix_up_properties name classdict
          (_fix_up_properties name earlier _kind_map).2).2
       = registry).
Proof.
  cbv zeta.
  assert (Hreg : ∀ body km,
            (_fix_up_properties name body km).2
            = <[name := (_fix_up_properties name body km).1]> km).
  { intros body km. by destruct (class_built name body km) as (_ & -> & _). }
  assert (Hcls : ∀ km km',
            (_fix_up_properties name classdict km).1
            = (_fix_up_properties name classdict km').1).
  { intros km km'. unfold _fix_up_properties.
    by destruct (map_fold _fix_up_properties_step (∅, ∅, ∅) classdict)
      as [[objects attrs] props]. }
  rewrite Hreg. unfold _lookup_model. split; [| split].
  - by rewrite lookup_insert_eq.
  - intros kind Hk. by rewrite lookup_insert_ne.
  - intros earlier. rewrite !Hreg, insert_insert_eq.
    by rewrite (Hcls _ _kind_map).
Qed.

(** ** Loading an instance from a stored entity *)

Lemma from_db_value_outcome (p : property) (v : value) :
  from_db_value p v
  = match class_of p, v with
    | (TextProperty | StringProperty), VStr s => decode_utf8 s
    | _, _ => Ok v
    end.
Proof.
  unfold from_db_value, _from_db_value.
  destruct (class_of p); try reflexivity; destruct v; reflexivity.
Qed.

Lemma from_entity_loop_fields (l : list (option string * property))
    (e : Entity) :
  ∀ obj obj', NoDup l.*1 → from_entity_loop l e obj = Ok obj' →
  (∀ k p, (k, p) ∈ l →
     ∃ w, obj' !! k = Some w
          ∧ from_db_value p (default VNone (entity_fields e !! k)) = Ok w)
  ∧ (∀ k, k ∉ l.*1 → obj' !! k = obj !! k).
Proof.
  induction l as [|[k0 p0] l IH]; intros obj obj' Hnd H.
  - simpl in H. injection H as <-. split; [| done].
    intros k p Hin. by apply elem_of_nil in Hin.
  - cbn [from_entity_loop] in H.
    destruct (from_db_value p0 _) as [w0|] eqn:E0; [| discriminate H].
    simpl in H. rewrite fmap_cons in Hnd.
    apply NoDup_cons in Hnd as [Hk0 Hnd].
    destruct (IH _ _ Hnd H) as [IH1 IH2]. split.
    + intros k p Hin. apply elem_of_cons in Hin as [Heq | Hin].
      * injection Heq as -> ->. exists w0. split; [| done].
        rewrite IH2 by done. apply lookup_insert_eq.
      * by apply IH1.
    + intros k Hk. rewrite fmap_cons in Hk.
      apply not_elem_of_cons in Hk as [Hne Hk].
      rewrite IH2 by done. by rewrite lookup_insert_ne.
Qed.

Lemma from_entity_loop_raises (l : list (option string * property))
    (e : Entity) (x : exn) :
  ∀ obj, from_entity_loop l e obj = Raise x →
  ∃ k p, (k, p) ∈ l
         ∧ from_db_value p (default VNone (entity_fields e !! k)) = Raise x.
Proof.
  induction l as [|[k0 p0] l IH]; intros obj H; [discriminate H |].
  cbn [from_entity_loop] in H.
  destruct (from_db_value p0 _) as [w0|x0] eqn:E0; simpl in H.
  - destruct (IH _ H) as (k & p & Hin & Hr).
    exists k, p. split; [by apply elem_of_cons; right | done].
  - injection H as ->. exists k0, p0. split; [by apply elem_of_cons; left | done].
Qed.

(** The instance [from_entity] returns is of the class it was called on
    and has the entity's key; it has exactly the fields of the schema: under
    every storage name of [_properties] the entity's value, which is [None]
    when the entity lacks the field and the decoded text when a text property
    finds a byte string; fields of the entity that the schema does not name
    are dropped. *)
Theorem from_entity_fields (cls : model_class) (e : Entity) (m : Model) :
  from_entity cls e = Ok m →
  model_class_of m = cls ∧ _key m = entity_key e
  ∧ (∀ k p, _properties cls !! k = Some p →
       ∃ w, model_fields m !! k = Some w
            ∧ from_db_value p (default VNone (entity_fields e !! k)) = Ok w)
  ∧ (∀ k, _properties cls !! k = None → model_fields m !! k = None).
Proof.
  intros H. unfold from_entity in H.
  destruct (from_entity_loop _ e ∅) as [obj|] eqn:E; [| discriminate H].
  simpl in H. injection H as <-. cbn [model_class_of _key model_fields].
  destruct (from_entity_loop_fields _ e ∅ obj
              (NoDup_fst_map_to_list (_properties cls)) E) as [H1 H2].
  split; [done | split; [done | split]].
  - intros k p Hk. apply H1. by apply elem_of_map_to_list.
  - intros k Hk. rewrite H2; [apply lookup_empty |].
    intros Hin. apply list_elem_of_fmap in Hin as ([k' p] & -> & Hin).
    apply elem_of_map_to_list in Hin. simpl in Hk. congruence.
Qed.

Lemma from_entity_fields_witness :
  from_entity Event
    (mkEntity event_key {[ Some "created" := VDateTime new_year;
                           Some "colour" := VStr "red" ]})
  = Ok (mkModel Event event_key
          {[ Some "created" := VDateTime new_year;
             Some "updated" := VNone;
             Some "touched" := VNone;
             Some "opened" := VNone ]})
  ∧ model_fields
      (mkModel Event event_key
         {[ Some "created" := VDateTime new_year;
            Some "updated" := VNone;
            Some "touched" := VNone;
            Some "opened" := VNone ]}) !! Some "colour" = None.
Proof.
  assert (H : from_entity Event
                (mkEntity event_key {[ Some "created" := VDateTime new_year;
                                       Some "colour" := VStr "red" ]})
              = Ok (mkModel Event event_key
                      {[ Some "created" := VDateTime new_year;
                         Some "updated" := VNone;
                         Some "touched" := VNone;
                         Some "opened" := VNone ]}))
    by (vm_compute; reflexivity).
  split; [exact H |].
  apply (from_entity_fields _ _ _ H). vm_compute. reflexivity.
Defined.

(** [from_entity] validates nothing.  The only exception it raises is
    [UnicodeDecodeError], and only for a text property whose field holds a
    byte string that is not UTF-8; on every other entity it returns an
    instance, whatever the types of the stored values and whether or not a
    required field is there. *)
Theorem from_entity_raises_only_undecodable (cls : model_class)
    (e : Entity) :
  (∀ x, from_entity cls e = Raise x →
     x = UnicodeDecodeError
     ∧ ∃ k p s, _properties cls !! k = Some p
                ∧ (class_of p = TextProperty ∨ class_of p = StringProperty)
                ∧ entity_fields e !! k = Some (VStr s)
                ∧ decode_utf8 s = Raise UnicodeDecodeError)
  ∧ ((∀ k p s, _properties cls !! k = Some p →
        (class_of p = TextProperty ∨ class_of p = StringProperty) →
        entity_fields e !! k = Some (VStr s) →
        is_ok (decode_utf8 s) = true) →
     is_ok (from_entity cls e) = true).
Proof.
  assert (Hcause : ∀ x, from_entity cls e = Raise x →
            x = UnicodeDecodeError
            ∧ ∃ k p s, _properties cls !! k = Some p
                ∧ (class_of p = TextProperty ∨ class_of p = StringProperty)
                ∧ entity_fields e !! k = Some (VStr s)
                ∧ decode_utf8 s = Raise UnicodeDecodeError).
  { intros x H. unfold from_entity in H.
    destruct (from_entity_loop _ e ∅) as [obj|x'] eqn:E; [discriminate H |].
    simpl in H. injection H as ->.
    destruct (from_entity_loop_raises _ e x ∅ E) as (k & p & Hin & Hr).
    apply elem_of_map_to_list in Hin.
    rewrite from_db_value_outcome in Hr.
    assert (Hs : ∃ s, (class_of p = TextProperty
                       ∨ class_of p = StringProperty)
                      ∧ default VNone (entity_fields e !! k) = VStr s
                      ∧ decode_utf8 s = Raise x).
    { destruct (class_of p); try discriminate Hr;
        destruct (default VNone (entity_fields e !! k));
        try discriminate Hr; eexists; eauto. }
    destruct Hs as (s & Hc & Hv & Hd).
    assert (Hx : x = UnicodeDecodeError).
    { unfold decode_utf8 in Hd.
      destruct (utf8_decode (bytes_of s)); congruence. }
    subst x. split; [reflexivity |]. exists k, p, s.
    repeat split; try done.
    destruct (entity_fields e !! k); simpl in Hv; congruence. }
  split; [exact Hcause |].
  intros Hall. destruct (from_entity cls e) as [m|x] eqn:E; [reflexivity |].
  destruct (Hcause x eq_refl) as (_ & k & p & s & Hk & Hc & Hv & Hd).
  specialize (Hall k p s Hk Hc Hv). rewrite Hd in Hall. discriminate Hall.
Qed.

(** ** Batch fetches, element by element *)

Section FetchPointwise.

Variable get_entities : list Key → list (option Entity).
Variable from_path : string → value → Key.

Lemma Model_get_multi_loop_pointwise (cls : model_class)
    (entities : list (option Entity)) :
  ∀ results out,
    Model_get_multi_loop cls entities results = Ok out
    ↔ ∃ tail, out = results ++ tail ∧ Forall2 (loaded_as cls) entities tail.
Proof.
  induction entities as [|entity rest IH]; intros results out.
  - simpl. split.
    + intros [= <-]. exists []. split; [by rewrite app_nil_r | constructor].
    + intros (tail & -> & Hf). apply Forall2_nil_inv_l in Hf as ->.
      by rewrite app_nil_r.
  - cbn [Model_get_multi_loop]. destruct entity as [e|].
    + destruct (from_entity cls e) as [obj|x] eqn:E; simpl.
      * rewrite IH. split.
        -- intros (tail & -> & Hf). exists (Some obj :: tail).
           split; [by rewrite <- app_assoc |]. by constructor.
        -- intros (tail & -> & Hf).
           apply Forall2_cons_inv_l in Hf as (r & tail' & Hr & Hf & ->).
           destruct r as [obj'|]; [| destruct Hr]. simpl in Hr.
           rewrite E in Hr. injection Hr as <-.
           exists tail'. split; [by rewrite <- app_assoc | done].
      * split; [discriminate |].
        intros (tail & -> & Hf).
        apply Forall2_cons_inv_l in Hf as (r & tail' & Hr & Hf & ->).
        destruct r as [obj'|]; [| destruct Hr]. simpl in Hr. congruence.
    + rewrite IH. split.
      * intros (tail & -> & Hf). exists (None :: tail).
        split; [by rewrite <- app_assoc |]. by constructor.
      * intros (tail & -> & Hf).
        apply Forall2_cons_inv_l in Hf as (r & tail' & Hr & Hf & ->).
        destruct r as [obj'|]; [destruct Hr |].
        exists tail'. split; [by rewrite <- app_assoc | done].
Qed.

(** [Model.get_multi] returns a list exactly when every fetched entity
    loads, and the list then matches the fetched one element by element, in
    order: [None] where the fetch gave [None], and elsewhere the instance of
    the class that [from_entity] makes of the entity.  The keys fetched are
    those of the class's own name and the given ids, in order. *)
Theorem Model_get_multi_pointwise (cls : model_class) (ids : list value)
    (out : list (option Model)) :
  Model_get_multi get_entities from_path cls ids = Ok out
  ↔ Forall2 (loaded_as cls)
      (get_entities (map (from_path (__name__ cls)) ids)) out.
Proof.
  unfold Model_get_multi. rewrite Model_get_multi_loop_pointwise. split.
  - by intros (tail & -> & Hf).
  - intros Hf. by exists out.
Qed.

Lemma get_multi_loop_pointwise (_kind_map : gmap string model_class)
    (entities : list (option Entity)) :
  ∀ results out,
    get_multi_loop _kind_map entities results = Ok out
    ↔ ∃ tail, out = results ++ tail
              ∧ Forall2 (loaded_by_kind _kind_map) entities tail.
Proof.
  induction entities as [|entity rest IH]; intros results out.
  - simpl. split.
    + intros [= <-]. exists []. split; [by rewrite app_nil_r | constructor].
    + intros (tail & -> & Hf). apply Forall2_nil_inv_l in Hf as ->.
      by rewrite app_nil_r.
  - cbn [get_multi_loop]. destruct entity as [e|]; simpl.
    + destruct (_lookup_model _kind_map (key_kind (entity_key e)))
        as [cls|x] eqn:Ek; simpl.
      * destruct (from_entity cls e) as [obj|x] eqn:E; simpl.
        -- rewrite IH. split.
           ++ intros (tail & -> & Hf). exists (Some obj :: tail).
              split; [by rewrite <- app_assoc |].
              constructor; [| done]. simpl. eauto.
           ++ intros (tail & -> & Hf).
              apply Forall2_cons_inv_l in Hf as (r & tail' & Hr & Hf & ->).
              destruct r as [obj'|]; [| destruct Hr].
              destruct Hr as (cls' & Hk' & Hr).
              assert (cls' = cls) as -> by congruence.
              rewrite E in Hr. injection Hr as <-.
              exists tail'. split; [by rewrite <- app_assoc | done].
        -- split; [discriminate |].
           intros (tail & -> & Hf).
           apply Forall2_cons_inv_l in Hf as (r & tail' & Hr & Hf & ->).
           destruct r as [obj'|]; [| destruct Hr].
           destruct Hr as (cls' & Hk' & Hr).
           assert (cls' = cls) as -> by congruence. congruence.
      * split; [discriminate |].
        intros (tail & -> & Hf).
        apply Forall2_cons_inv_l in Hf as (r & tail' & Hr & Hf & ->).
        destruct r as [obj'|]; [| destruct Hr].
        destruct Hr as (cls' & Hk' & Hr). congruence.
    + split; [discriminate |].
      intros (tail & -> & Hf).
      apply Forall2_cons_inv_l in Hf as (r & tail' & Hr & Hf & ->).
      destruct Hr.
Qed.

(** The module's [get_multi] returns a list exactly when every key is
    resolved, the kind of every fetched entity's key is registered and every
    entity loads; the list is then, element by element and in order, the
    instance that the class registered under the entity's kind makes of
    it. *)
Theorem get_multi_pointwise (_kind_map : gmap string model_class)
    (keys : list Key) (out : list (option Model)) :
  get_multi get_entities _kind_map keys = Ok out
  ↔ Forall2 (loaded_by_kind _kind_map) (get_entities keys) out.
Proof.
  unfold get_multi. rewrite get_multi_loop_pointwise. split.
  - by intros (tail & -> & Hf).
  - intros Hf. by exists out.
Qed.

End FetchPointwise.

(** ** Saving: the pre-put hooks and [put] *)

Section Saving.

Variable json : json_module.
Variable utcnow : nat → datetime.

Lemma now_ticks (p : property) (clock : nat) :
  (_now utcnow p clock).2 = S clock.
Proof. unfold _now. by destruct (class_of p). Qed.

Lemma setattr_frame (e e' : Model) (name : option string) (v : value) :
  setattr json e name v = Ok e' →
  ∃ n q, name = Some n ∧ attributes (model_class_of e) !! n = Some q
         ∧ model_class_of e' = model_class_of e ∧ _key e' = _key e
         ∧ ∀ k, k ≠ _name q → model_fields e' !! k = model_fields e !! k.
Proof.
  unfold setattr. destruct name as [n|]; [| discriminate].
  destruct (attributes _ !! n) as [q|] eqn:E; [| discriminate].
  unfold __set__. destruct (validate q v) as [w|]; [| discriminate].
  simpl. destruct (to_base_type json q w) as [b|]; [| discriminate].
  simpl. intros [= <-]. exists n, q.
  split; [done | split; [done | split; [done | split; [done |]]]].
  intros k Hk. simpl. by rewrite lookup_insert_ne.
Qed.

Lemma prepare_for_put_result (p : property) (e e' : Model) (c c' : nat) :
  _prepare_for_put json utcnow p e c = Ok (e', c') →
  model_class_of e' = model_class_of e ∧ _key e' = _key e
  ∧ (c ≤ c' ≤ c + 2)%nat
  ∧ (stamped p = false → e' = e ∧ c' = c)
  ∧ (∀ k, (∀ n q, _name p = Some n →
             attributes (model_class_of e) !! n = Some q → _name q ≠ k) →
       model_fields e' !! k = model_fields e !! k).
Proof.
  unfold _prepare_for_put, stamped.
  destruct (is_datetime_class (class_of p));
    [| intros [= <- <-]; repeat split; try done; lia].
  destruct (getattr json e (_name p)) as [v|]; [| discriminate].
  unfold mbind, result_bind. cbn [bind andb].
  destruct (is_none v && _auto_now_add p) eqn:E1.
  - apply andb_true_iff in E1 as [_ E1]. rewrite E1. cbn [orb].
    pose proof (now_ticks p c) as Hc1.
    destruct (_now utcnow p c) as [now1 c1]. simpl in Hc1. subst c1.
    destruct (setattr json e (_name p) now1) as [e1|] eqn:Es1;
      [| discriminate].
    cbn [bind].
    destruct (setattr_frame _ _ _ _ Es1)
      as (n1 & q1 & Hn1 & Hq1 & Hcls1 & Hkey1 & Hf1).
    destruct (_auto_now p).
    + pose proof (now_ticks p (S c)) as Hc2.
      destruct (_now utcnow p (S c)) as [now2 c2]. simpl in Hc2. subst c2.
      destruct (setattr json e1 (_name p) now2) as [e2|] eqn:Es2;
        [| discriminate].
      cbn [bind]. intros [= <- <-].
      destruct (setattr_frame _ _ _ _ Es2)
        as (n2 & q2 & Hn2 & Hq2 & Hcls2 & Hkey2 & Hf2).
      split; [congruence | split; [congruence | split; [lia |]]].
      split; [discriminate |].
      intros k Hk. rewrite Hf2, Hf1; [done | |].
      * apply not_eq_sym. by apply (Hk n1 q1).
      * apply not_eq_sym. apply (Hk n2 q2); [done |]. by rewrite <- Hcls1.
    + intros [= <- <-].
      split; [done | split; [done | split; [lia |]]].
      split; [discriminate |].
      intros k Hk. rewrite Hf1; [done |].
      apply not_eq_sym. by apply (Hk n1 q1).
  - cbn [bind]. destruct (_auto_now p).
    + pose proof (now_ticks p c) as Hc1.
      destruct (_now utcnow p c) as [now1 c1]. simpl in Hc1. subst c1.
      destruct (setattr json e (_name p) now1) as [e1|] eqn:Es1;
        [| discriminate].
      cbn [bind]. intros [= <- <-].
      destruct (setattr_frame _ _ _ _ Es1)
        as (n1 & q1 & Hn1 & Hq1 & Hcls1 & Hkey1 & Hf1).
      split; [done | split; [done | split; [lia |]]].
      split; [rewrite orb_true_r; discriminate |].
      intros k Hk. rewrite Hf1; [done |].
      apply not_eq_sym. by apply (Hk n1 q1).
    + intros [= <- <-]. repeat split; try done; lia.
Qed.

(** What a pre-put hook that returns has done, for a property whose
    storage name is the name of a property attribute [q] of the class.  The
    instance keeps its class and its key, and the clock was read at most
    twice.  A hook that does not stamp (every class outside the date-time
    family, and the date-time family with neither [auto_now_add] nor
    [auto_now]) changes nothing and does not read the clock.  A hook that
    stamps writes through [q], so no field but the one of [q] changes. *)
Theorem prepare_for_put_frame (p q : property) (n : string)
    (e e' : Model) (c c' : nat) :
  _name p = Some n → attributes (model_class_of e) !! n = Some q →
  _prepare_for_put json utcnow p e c = Ok (e', c') →
  model_class_of e' = model_class_of e ∧ _key e' = _key e
  ∧ (c ≤ c' ≤ c + 2)%nat
  ∧ (stamped p = false → e' = e ∧ c' = c)
  ∧ (∀ k, k ≠ _name q → model_fields e' !! k = model_fields e !! k).
Proof.
  intros Hn Hq H.
  destruct (prepare_for_put_result p e e' c c' H)
    as (Hcls & Hkey & Hclock & Hun & Hf).
  split; [done | split; [done | split; [done | split; [done |]]]].
  intros k Hk. apply Hf. intros n' q' Hn' Hq'.
  assert (n' = n) as -> by congruence.
  assert (q' = q) as -> by congruence.
  by apply not_eq_sym.
Qed.

(** *** [put] *)

Lemma put_loop_plain (l : list (option string * property)) :
  Forall (fun kp => is_datetime_class (class_of kp.2) = false) l →
  ∀ e c, put_loop json utcnow l e c = Ok (e, c).
Proof.
  induction 1 as [|[k p] l Hp _ IH]; intros e c; [reflexivity |].
  cbn [put_loop]. unfold _prepare_for_put. simpl in Hp. rewrite Hp.
  unfold mbind, result_bind. cbn [bind]. apply IH.
Qed.

Lemma put_loop_blocked (cls : model_class) (k : option string)
    (p : property) (l : list (option string * property)) :
  (k, p) ∈ l →
  (∀ e c, model_class_of e = cls →
     is_ok (_prepare_for_put json utcnow p e c) = false) →
  ∀ e c, model_class_of e = cls → ∃ x, put_loop json utcnow l e c = Raise x.
Proof.
  intros Hin Hfail. revert Hin.
  induction l as [|[k0 p0] l IH]; intros Hin e c He.
  { by apply elem_of_nil in Hin. }
  cbn [put_loop].
  destruct (_prepare_for_put json utcnow p0 e c) as [[e1 c1]|x] eqn:E0;
    [| by exists x].
  unfold mbind, result_bind. cbn [bind].
  apply elem_of_cons in Hin as [[= <- <-] | Hin].
  - specialize (Hfail e c He). rewrite E0 in Hfail. discriminate Hfail.
  - apply IH; [done |].
    destruct (prepare_for_put_result _ _ _ _ _ E0) as (Hc & _). congruence.
Qed.

Lemma put_blocked (self : Model) (clock : nat) (k : option string)
    (p : property) :
  _properties (model_class_of self) !! k = Some p →
  (∀ e c, model_class_of e = model_class_of self →
     is_ok (_prepare_for_put json utcnow p e c) = false) →
  ∃ x, ∀ (saved : Type) (save : Model → result saved),
    put json utcnow saved save self clock = Raise x.
Proof.
  intros Hk Hfail.
  destruct (put_loop_blocked (model_class_of self) k p
              (map_to_list (_properties (model_class_of self)))
              ltac:(by apply elem_of_map_to_list) Hfail self clock eq_refl)
    as [x Hx].
  exists x. intros saved save. unfold put. rewrite Hx. reflexivity.
Qed.

Lemma put_loop_frame (l : list (option string * property)) :
  ∀ e c e' c', put_loop json utcnow l e c = Ok (e', c') →
  model_class_of e' = model_class_of e ∧ _key e' = _key e
  ∧ ∀ k, (∀ kp p, (kp, p) ∈ l → stamped p = true →
            ∀ n q, _name p = Some n →
                   attributes (model_class_of e) !! n = Some q →
                   _name q ≠ k) →
         model_fields e' !! k = model_fields e !! k.
Proof.
  induction l as [|[k0 p0] l IH]; intros e c e' c' H.
  { simpl in H. injection H as <- <-. done. }
  cbn [put_loop] in H.
  destruct (_prepare_for_put json utcnow p0 e c) as [[e1 c1]|x] eqn:E0;
    [| discriminate H].
  unfold mbind, result_bind in H. cbn [bind] in H.
  destruct (prepare_for_put_result _ _ _ _ _ E0)
    as (Hc1 & Hk1 & _ & Hun & Hf1).
  destruct (IH _ _ _ _ H) as (Hc2 & Hk2 & Hf2).
  split; [congruence | split; [congruence |]].
  intros k Hk. rewrite Hf2.
  - destruct (stamped p0) eqn:Es.
    + apply Hf1. intros n q Hn Hq.
      refine (Hk k0 p0 _ Es n q Hn Hq). by apply elem_of_cons; left.
    + by destruct (Hun eq_refl) as [-> _].
  - intros kp p Hin Hs n q Hn Hq. rewrite Hc1 in Hq.
    refine (Hk kp p _ Hs n q Hn Hq). by apply elem_of_cons; right.
Qed.

(** On an instance of a class with no property of the date-time family,
    [put] is [save]: the instance reaches [save] as it is, the clock is not
    read, and what [save] returns or raises is what [put] returns or
    raises. *)
Theorem put_saves_unchanged (saved : Type) (save : Model → result saved)
    (self : Model) (clock : nat) :
  map_Forall (fun _ p => is_datetime_class (class_of p) = false)
    (_properties (model_class_of self)) →
  put json utcnow saved save self clock
  = (r ← save self; Ok (r, self, clock)).
Proof.
  intros Hall. unfold put. rewrite put_loop_plain; [reflexivity |].
  apply map_Forall_to_list in Hall.
  eapply Forall_impl; [exact Hall |]. by intros [k p].
Qed.

Lemma stamp_not_None (p : property) (c : nat) :
  (_now utcnow p c).1 ≠ VNone.
Proof. unfold _now. by destruct (class_of p). Qed.

Lemma rejected_stamp_blocks (cls : model_class) (p : property)
    (n : string) :
  is_datetime_class (class_of p) = true → _auto_now p = true →
  _name p = Some n → attributes cls !! n = Some p →
  (∀ c, is_ok (validate p (_now utcnow p c).1) = false) →
  ∀ e c, model_class_of e = cls →
    is_ok (_prepare_for_put json utcnow p e c) = false.
Proof.
  intros Hdt Hnow Hn Hattr Hrej e c He.
  assert (Hset : ∀ e0 c0, model_class_of e0 = cls →
            is_ok (setattr json e0 (Some n) (_now utcnow p c0).1) = false).
  { intros e0 c0 He0. unfold setattr, __set__. rewrite He0, Hattr.
    specialize (Hrej c0). revert Hrej.
    by destruct (validate p (_now utcnow p c0).1). }
  unfold _prepare_for_put. rewrite Hdt, Hn, Hnow.
  destruct (getattr json e (Some n)) as [v|]; [| reflexivity].
  unfold mbind, result_bind. cbn [bind].
  destruct (is_none v && _auto_now_add p).
  - generalize (Hset e c He).
    destruct (_now utcnow p c) as [now1 c1]. cbn [fst].
    by destruct (setattr json e (Some n) now1).
  - cbn [bind]. generalize (Hset e c He).
    destruct (_now utcnow p c) as [now1 c1]. cbn [fst].
    by destruct (setattr json e (Some n) now1).
Qed.

(** A property with [auto_now] whose validation rejects its own stamp
    stops every [put]: a [TimeProperty], whose stamp is a date-time and not
    a time, and a property that is also [required], which accepts nothing
    but [None].  [put] raises on every instance of the class and [save] is
    never called. *)
Theorem put_blocked_by_rejected_stamp (self : Model) (clock : nat)
    (p : property) (n : string) :
  _properties (model_class_of self) !! Some n = Some p →
  attributes (model_class_of self) !! n = Some p →
  _name p = Some n →
  is_datetime_class (class_of p) = true → _auto_now p = true →
  class_of p = TimeProperty ∨ _required p = true →
  ∃ x, ∀ (saved : Type) (save : Model → result saved),
    put json utcnow saved save self clock = Raise x.
Proof.
  intros Hk Hattr Hn Hdt Hnow Hwhy.
  apply (put_blocked self clock (Some n) p Hk).
  apply (rejected_stamp_blocks _ p n); try done.
  intros c. destruct Hwhy as [Ht | Hreq].
  - unfold validate, _now, _validate. rewrite Ht. cbn [fst].
    destruct (match _choices p with None => _ | Some _ => _ end);
      [| reflexivity].
    destruct (_required p); reflexivity.
  - rewrite validate_required_present; [reflexivity | done |].
    apply stamp_not_None.
Qed.

(** What [put] does to an instance of a class whose properties are all
    declared without an explicit name, when it returns: the instance that
    reached [save] has the class and the key it had, and every field but
    those of the stamped properties (date-time family with [auto_now_add]
    or [auto_now]) holds what it held, including the fields that belong to
    no property. *)
Theorem put_changes_only_stamped (name : string)
    (classdict : gmap string object)
    (_kind_map : gmap string model_class)
    (saved : Type) (save : Model → result saved)
    (self self' : Model) (clock clock' : nat) (r : saved) :
  map_Forall (fun _ (o : object) => _name o = None) classdict →
  model_class_of self = (_fix_up_properties name classdict _kind_map).1 →
  put json utcnow saved save self clock = Ok (r, self', clock') →
  save self' = Ok r
  ∧ model_class_of self' = model_class_of self ∧ _key self' = _key self
  ∧ (∀ n, (∀ p, attributes (model_class_of self) !! n = Some p →
             stamped p = false) →
       model_fields self' !! Some n = model_fields self !! Some n)
  ∧ model_fields self' !! None = model_fields self !! None.
Proof.
  intros Hun Hcls H.
  destruct (class_schema name classdict _kind_map)
    as (_ & _ & Hprops & _ & _ & Hself).
  cbv zeta in Hprops, Hself. specialize (Hself Hun).
  rewrite <- Hcls in Hprops, Hself.
  unfold put in H.
  destruct (put_loop json utcnow _ self clock) as [[e1 c1]|] eqn:El;
    [| discriminate H].
  unfold mbind, result_bind in H. cbn [bind] in H.
  destruct (save e1) as [r1|] eqn:Es; [| discriminate H].
  cbn [bind] in H. injection H as <- <- <-.
  destruct (put_loop_frame _ _ _ _ _ El) as (Hc & Hk & Hf).
  assert (Hwho : ∀ kp p n q,
            (kp, p) ∈ map_to_list (_properties (model_class_of self)) →
            _name p = Some n →
            attributes (model_class_of self) !! n = Some q →
            q = p ∧ _name q = Some n).
  { intros kp p n q Hin Hn Hq. apply elem_of_map_to_list in Hin.
    destruct (Hprops kp p Hin) as (_ & n0 & Hn0).
    destruct (Hself n0 p Hn0) as (m & Hm & Hpm).
    assert (m = n) as -> by congruence.
    assert (q = p) as -> by congruence. done. }
  split; [done | split; [done | split; [done | split]]].
  - intros n Hplain. apply Hf. intros kp p Hin Hs n' q Hn' Hq.
    destruct (Hwho kp p n' q Hin Hn' Hq) as [-> Hqn].
    rewrite Hqn. intros [= ->].
    rewrite (Hplain p Hq) in Hs. discriminate Hs.
  - apply Hf. intros kp p Hin Hs n' q Hn' Hq.
    destruct (Hwho kp p n' q Hin Hn' Hq) as [_ Hqn]. by rewrite Hqn.
Qed.

End Saving.

Lemma prepare_for_put_frame_witness :
  _prepare_for_put no_json daily_clock created new_event 0
  = Ok (with_field new_event "created" (VDateTime (daily_clock 0)), 1%nat)
  ∧ model_fields (with_field new_event "created" (VDateTime (daily_clock 0)))
      !! Some "updated"
    = model_fields new_event !! Some "updated".
Proof.
  assert (H : _prepare_for_put no_json daily_clock created new_event 0
              = Ok (with_field new_event "created"
                      (VDateTime (daily_clock 0)), 1%nat))
    by (vm_compute; reflexivity).
  assert (Hq : attributes (model_class_of new_event) !! "created"
               = Some created) by (vm_compute; reflexivity).
  split; [exact H |].
  apply (prepare_for_put_frame no_json daily_clock created created "created"
           _ _ _ _ eq_refl Hq H).
  discriminate.
Defined.

Lemma put_saves_unchanged_witness :
  put no_json daily_clock unit saving a_tally 5 = Ok (tt, a_tally, 5%nat).
Proof.
  apply (put_saves_unchanged no_json daily_clock unit saving a_tally 5).
  apply map_Forall_to_list. vm_compute. repeat constructor.
Defined.

Lemma put_blocked_by_rejected_stamp_witness :
  ∃ x, ∀ (saved : Type) (save : Model → result saved),
    put no_json daily_clock saved save (mkModel Alarm event_key ∅) 0
    = Raise x.
Proof.
  apply (put_blocked_by_rejected_stamp no_json daily_clock
           (mkModel Alarm event_key ∅) 0 at_property "at").
  - vm_compute. reflexivity.
  - vm_compute. reflexivity.
  - reflexivity.
  - reflexivity.
  - reflexivity.
  - by left.
Defined.

Lemma put_changes_only_stamped_witness :
  put no_json daily_clock unit saving a_note 0
  = Ok (tt, with_field a_note "updated" (VDateTime (daily_clock 0)), 1%nat)
  ∧ model_fields (with_field a_note "updated" (VDateTime (daily_clock 0)))
      !! Some "text"
    = model_fields a_note !! Some "text"
  ∧ model_fields (with_field a_note "updated" (VDateTime (daily_clock 0)))
      !! Some "colour"
    = model_fields a_note !! Some "colour".
Proof.
  assert (H : put no_json daily_clock unit saving a_note 0
              = Ok (tt, with_field a_note "updated"
                          (VDateTime (daily_clock 0)), 1%nat))
    by (vm_compute; reflexivity).
  assert (Hun : map_Forall (fun _ (o : object) => _name o = None) Note_body).
  { unfold Note_body.
    repeat (apply map_Forall_insert_2; [reflexivity |]).
    apply map_Forall_empty. }
  destruct (put_changes_only_stamped no_json daily_clock "Note" Note_body ∅
              unit saving a_note _ 0 _ tt Hun eq_refl H)
    as (_ & _ & _ & Hf & _).
  split; [exact H | split].
  - apply Hf. intros p Hp. vm_compute in Hp. injection Hp as <-.
    reflexivity.
  - apply Hf. intros p Hp. vm_compute in Hp. discriminate Hp.
Defined.

(** ** What the attributes of a property do and do not change *)

(** Once a property is constructed, [indexed], [repeated] and [schema] are
    read by none of its operations: validation, the conversions, attribute
    access and the pre-put hook give the same result whatever their values.
    A repeated property still takes one value, not a list. *)
Theorem flags_never_consulted (json : json_module) (p : property)
    (indexed repeated : bool) (schema : value) :
  let q := with_flags indexed repeated schema p in
  (∀ v, validate q v = validate p v)
  ∧ (∀ v, to_base_type json q v = to_base_type json p v)
  ∧ (∀ v, from_base_type json q v = from_base_type json p v)
  ∧ (∀ v, from_db_value q v = from_db_value p v)
  ∧ (∀ instance, __get__ json q instance = __get__ json p instance)
  ∧ (∀ instance v, __set__ json q instance v = __set__ json p instance v)
  ∧ (∀ instance, __del__ q instance = __del__ p instance)
  ∧ (∀ utcnow entity clock,
       _prepare_for_put json utcnow q entity clock
       = _prepare_for_put json utcnow p entity clock).
Proof. cbv zeta. repeat split; reflexivity. Qed.

(** The text properties take [compressed] and never compress: their
    conversions are their own and do not look at the flag, so a
    [TextProperty] or [StringProperty] with [compressed=True] stores and
    reads exactly what it does without it. *)
Theorem text_ignores_compressed (json : json_module) (p : property)
    (z : bool) :
  class_of p = TextProperty ∨ class_of p = StringProperty →
  (∀ v, to_base_type json (set_compressed z p) v = to_base_type json p v)
  ∧ (∀ v, from_base_type json (set_compressed z p) v
          = from_base_type json p v)
  ∧ (∀ instance v, __set__ json (set_compressed z p) instance v
                   = __set__ json p instance v)
  ∧ (∀ instance, __get__ json (set_compressed z p) instance
                 = __get__ json p instance).
Proof.
  intros Hc.
  assert (Hto : ∀ v, to_base_type json (set_compressed z p) v
                     = to_base_type json p v).
  { intros v. unfold to_base_type, _to_base_type.
    change (class_of (set_compressed z p)) with (class_of p).
    by destruct Hc as [-> | ->]. }
  assert (Hfrom : ∀ v, from_base_type json (set_compressed z p) v
                       = from_base_type json p v).
  { intros v. unfold from_base_type, _from_base_type.
    change (class_of (set_compressed z p)) with (class_of p).
    by destruct Hc as [-> | ->]. }
  split; [exact Hto | split; [exact Hfrom | split]].
  - intros instance v. unfold __set__.
    change (validate (set_compressed z p) v) with (validate p v).
    destruct (validate p v) as [w|]; [| reflexivity].
    unfold mbind, result_bind. cbn [bind]. by rewrite Hto.
  - intros instance. unfold __get__. by rewrite Hfrom.
Qed.

Lemma text_ignores_compressed_witness :
  __set__ no_json (set_compressed true text_property) ∅ (VStr e_acute)
  = __set__ no_json text_property ∅ (VStr e_acute).
Proof.
  exact (proj1 (proj2 (proj2 (text_ignores_compressed no_json text_property
                                true (or_introl eq_refl))))
           ∅ (VStr e_acute)).
Defined.

(** For every class whose conversion the module can carry out and with no
    custom validator, a write succeeds exactly when validation does: the
    conversion to the base type never fails on a value that passed
    validation. *)
Theorem set_succeeds_when_valid (json : json_module) (p : property)
    (instance : fields) (v : value) :
  converts p = true → _validator p = None →
  is_ok (__set__ json p instance v) = is_ok (validate p v).
Proof.
  intros Hconv Hval. unfold __set__.
  destruct (validate p v) as [w|] eqn:Ev; [| reflexivity].
  unfold mbind, result_bind. cbn [bind is_ok].
  destruct (validate_inv p v w Ev) as (_ & [[-> ->] | (Hv & _ & u & Hu & Hw)]);
    [reflexivity |].
  rewrite Hval in Hw. subst w.
  assert (Hto : is_ok (to_base_type json p v) = true).
  { unfold to_base_type, _to_base_type, BlobProperty__to_base_type.
    unfold converts in Hconv. unfold _validate in Hu.
    destruct (class_of p); try discriminate Hconv;
      destruct v; try reflexivity; try discriminate Hu;
      try (apply negb_true_iff in Hconv; rewrite Hconv; reflexivity);
      simpl in Hu |- *; by destruct (decode_utf8 s). }
  destruct (to_base_type json p v); [reflexivity | discriminate Hto].
Qed.

Lemma set_succeeds_when_valid_witness :
  is_ok (__set__ no_json birthday_property ∅ (VDateTime new_year))
  = is_ok (validate birthday_property (VDateTime new_year)).
Proof.
  exact (set_succeeds_when_valid no_json birthday_property ∅
           (VDateTime new_year) eq_refl eq_refl).
Defined.

(** ** One instance by id *)

Lemma entity_truth_fields (e : Entity) :
  entity_truth e = true ↔ entity_fields e ≠ ∅.
Proof.
  unfold entity_truth. rewrite negb_true_iff, Nat.eqb_neq.
  apply map_size_non_empty_iff.
Qed.

(** [get_by_id] against [Model.get_multi] on the one id, when the storage
    client answers the batch of one key as it answers the key alone.  If the
    entity found, if any, holds a field, [get_multi] returns the one-element
    list of what [get_by_id] returns, and raises when it raises; an
    unresolved key gives [None] in both.  An entity that holds no field is
    false: [get_by_id] returns [None] for it, where [get_multi] returns its
    instance. *)
Theorem get_by_id_is_get_multi_of_one
    (get_entity : Key → option Entity)
    (get_entities : list Key → list (option Entity))
    (from_path : string → value → Key) (cls : model_class) (id : value) :
  get_entities [from_path (__name__ cls) id]
  = [get_entity (from_path (__name__ cls) id)] →
  ((∀ e, get_entity (from_path (__name__ cls) id) = Some e →
         entity_fields e ≠ ∅) →
   Model_get_multi get_entities from_path cls [id]
   = (r ← get_by_id get_entity from_path cls id; Ok [r]))
  ∧ (∀ e, get_entity (from_path (__name__ cls) id) = Some e →
          entity_fields e = ∅ →
          get_by_id get_entity from_path cls id = Ok None
          ∧ Model_get_multi get_entities from_path cls [id]
            = (obj ← from_entity cls e; Ok [Some obj])).
Proof.
  intros Hone. unfold Model_get_multi, get_by_id.
  cbn [map]. rewrite Hone. split.
  - intros Htrue.
    destruct (get_entity (from_path (__name__ cls) id)) as [e|];
      [| reflexivity].
    rewrite (proj2 (entity_truth_fields e) (Htrue e eq_refl)).
    cbn [Model_get_multi_loop]. by destruct (from_entity cls e).
  - intros e -> Hempty.
    assert (Hfalse : entity_truth e = false).
    { destruct (entity_truth e) eqn:E; [| done].
      by apply entity_truth_fields in E. }
    rewrite Hfalse. split; [reflexivity |].
    cbn [Model_get_multi_loop]. by destruct (from_entity cls e).
Qed.

Lemma get_by_id_is_get_multi_of_one_witness :
  (Model_get_multi
     (fun ks =>
        map (fun _ => Some (mkEntity event_key
                              {[ Some "created" := VDateTime new_year ]})) ks)
     (fun kind id => mkKey [SegId (VStr kind) id] VNone VNone) Event [VInt 1]
   = (r ← get_by_id
            (fun _ => Some (mkEntity event_key
                              {[ Some "created" := VDateTime new_year ]}))
            (fun kind id => mkKey [SegId (VStr kind) id] VNone VNone)
            Event (VInt 1);
      Ok [r]))
  ∧ get_by_id (fun _ => Some (mkEntity event_key ∅))
      (fun kind id => mkKey [SegId (VStr kind) id] VNone VNone)
      Event (VInt 1)
    = Ok None.
Proof.
  split.
  - apply (proj1 (get_by_id_is_get_multi_of_one
                    (fun _ => Some (mkEntity event_key
                                      {[ Some "created" :=
                                           VDateTime new_year ]}))
                    (fun ks => map (fun _ => Some (mkEntity event_key
                                      {[ Some "created" :=
                                           VDateTime new_year ]})) ks)
                    (fun kind id => mkKey [SegId (VStr kind) id] VNone VNone)
                    Event (VInt 1) eq_refl)).
    intros e [= <-]. apply map_non_empty_singleton.
  - apply (proj2 (get_by_id_is_get_multi_of_one
                    (fun _ => Some (mkEntity event_key ∅))
                    (fun ks => map (fun _ => Some (mkEntity event_key ∅)) ks)
                    (fun kind id => mkKey [SegId (VStr kind) id] VNone VNone)
                    Event (VInt 1) eq_refl)
             (mkEntity event_key ∅) eq_refl eq_refl).
Defined.
